(** * HDBrainExtractionTool: the scripted module's logic and widget

    A shallow embedding of [HDBrainExtractionTool.py].  The module is glue
    between the host application (scene nodes, storage nodes, Qt widgets),
    the disk and the external HD-BET tool, so the embedding is stateful:
    Python statements become computations in a state-and-exception monad
    over a [World] (disk, scene objects, log of I/O operations), and the
    external collaborators are parameters of the development. *)

From Stdlib Require Import ZArith QArith.
From stdpp Require Import base option gmap strings list fin_maps pretty.

Local Open Scope string_scope.
Local Open Scope Z_scope.

(** ** Python values that reach [process] as [device] *)

(** [device] is dynamically typed: [None] (the default), a string
    ("auto", "cpu") or an integer GPU index. *)
Inductive Device :=
| DevNone
| DevStr (s : string)
| DevInt (n : Z).

#[global] Instance Device_eq_dec : EqDecision Device.
Proof. solve_decision. Defined.

(** Python truth value of a string: only the empty string is false. *)
Definition truthy_str (s : string) : bool := negb (String.eqb s "").

(** Python truth value of a device: [None], the empty string and the
    integer 0 are false. *)
Definition truthy (d : Device) : bool :=
  match d with
  | DevNone => false
  | DevStr s => truthy_str s
  | DevInt n => negb (Z.eqb n 0)
  end.

(** Python [==] on these values: values of different types are unequal. *)
Definition py_eq (a b : Device) : bool := bool_decide (a = b).

(** ** Host objects *)

(** Voxel buffer of an image; the module never interprets it. *)
Definition ImageData := list Z.

Record Segment := mkSegment {
  seg_name : string;
  seg_tags : gmap string string;
  seg_color : Q * Q * Q;
}.

(** A segmentation keeps its segments in order, each under its segment ID. *)
Definition Segmentation := list (string * Segment).

Definition GetNthSegmentID (s : Segmentation) (n : nat) : string :=
  match s !! n with
  | Some (sid, _) => sid
  | None => ""
  end.

Fixpoint GetSegment (s : Segmentation) (sid : string) : option Segment :=
  match s with
  | [] => None
  | (k, g) :: rest => if String.eqb k sid then Some g else GetSegment rest sid
  end.

(** In-place change of the segment that [GetSegment s sid] returns. *)
Fixpoint modify_segment (f : Segment -> Segment) (sid : string) (s : Segmentation)
  : Segmentation :=
  match s with
  | [] => []
  | (k, g) :: rest =>
      if String.eqb k sid then (k, f g) :: rest
      else (k, g) :: modify_segment f sid rest
  end.

Definition GetTerminologyEntryTagName : string := "TerminologyEntry".

Definition SetTag (k v : string) (g : Segment) : Segment :=
  {| seg_name := seg_name g; seg_tags := <[k := v]> (seg_tags g); seg_color := seg_color g |}.
Definition SetName (n : string) (g : Segment) : Segment :=
  {| seg_name := n; seg_tags := seg_tags g; seg_color := seg_color g |}.
Definition SetColor (r g b : Q) (s : Segment) : Segment :=
  {| seg_name := seg_name s; seg_tags := seg_tags s; seg_color := (r, g, b) |}.

(** The parameter node: node references by role and string parameters. *)
Record ParameterNode := mkParameterNode {
  references : gmap string string;
  parameters : gmap string string;
}.

#[global] Instance ParameterNode_eq_dec : EqDecision ParameterNode.
Proof. solve_decision. Defined.

(** An absent parameter reads as the empty string. *)
Definition GetParameter (pn : ParameterNode) (k : string) : string :=
  default "" (parameters pn !! k).

Definition SetParameter (k v : string) (pn : ParameterNode) : ParameterNode :=
  mkParameterNode (references pn) (<[k := v]> (parameters pn)).

(** An empty node ID removes the reference. *)
Definition SetNodeReferenceID (role nodeID : string) (pn : ParameterNode) : ParameterNode :=
  if String.eqb nodeID "" then mkParameterNode (delete role (references pn)) (parameters pn)
  else mkParameterNode (<[role := nodeID]> (references pn)) (parameters pn).

(** The referenced node, when the scene (node ID to node name) has it. *)
Definition GetNodeReference (scene : gmap string string) (pn : ParameterNode) (role : string)
  : option string :=
  match references pn !! role with
  | Some nodeID => if bool_decide (is_Some (scene !! nodeID)) then Some nodeID else None
  | None => None
  end.

(** ** The external tool's call *)

Record RunArgs := mkRunArgs {
  mri_fnames : list string;
  output_fnames : list string;
  mode : string;
  config_file : string;
  run_device : Device;
  postprocess : bool;
  do_tta : bool;
  keep_mask : bool;
  overwrite : bool;
  bet : bool;
}.

(** ** The world the logic acts on *)

Inductive IOEvent :=
| EvTempDirectory (path : string)
| EvWriteData (path : string) (node : string)
| EvRunHdBet (args : RunArgs)
| EvRemove (path : string)
| EvReadVolume (path : string) (node : string)
| EvReadSegmentation (path : string) (node : string).

(** The exceptions that the statements of the module raise themselves:
    the ValueError of [process]'s argument check, the FileNotFoundError of
    os.remove on a missing file, the AttributeError of a method call on
    [None].  [ToolError] stands for whatever the external tool raises, of
    whichever Python type.  Other failures of the host (an import that
    fails, os.remove refused by the file system) are outside the model. *)
Inductive PyException :=
| ValueError (msg : string)
| FileNotFoundError (path : string)
| AttributeError (msg : string)
| ToolError.

(** Scene nodes are reached through their node ID; a node that was never
    filled is the empty node the scene creates. *)
Record World := mkWorld {
  disk : gmap string ImageData;
  temp_dirs : list string;
  volumes : gmap string ImageData;
  segmentations : gmap string Segmentation;
  cuda : bool;
  io_log : list IOEvent;
}.

Definition set_disk (d : gmap string ImageData) (w : World) : World :=
  mkWorld d (temp_dirs w) (volumes w) (segmentations w) (cuda w) (io_log w).
Definition add_temp_dir (p : string) (w : World) : World :=
  mkWorld (disk w) (temp_dirs w ++ [p]) (volumes w) (segmentations w) (cuda w) (io_log w).
Definition set_volume (n : string) (v : ImageData) (w : World) : World :=
  mkWorld (disk w) (temp_dirs w) (<[n := v]> (volumes w)) (segmentations w) (cuda w) (io_log w).
Definition set_segmentation (n : string) (s : Segmentation) (w : World) : World :=
  mkWorld (disk w) (temp_dirs w) (volumes w) (<[n := s]> (segmentations w)) (cuda w) (io_log w).
Definition set_cuda (c : bool) (w : World) : World :=
  mkWorld (disk w) (temp_dirs w) (volumes w) (segmentations w) c (io_log w).
Definition log_event (e : IOEvent) (w : World) : World :=
  mkWorld (disk w) (temp_dirs w) (volumes w) (segmentations w) (cuda w) (io_log w ++ [e]).

(** The calls of the external tool that a log records, in order. *)
Definition tool_calls (l : list IOEvent) : list RunArgs :=
  omap (fun e => match e with EvRunHdBet a => Some a | _ => None end) l.

Definition volume_of (w : World) (n : string) : ImageData := default [] (volumes w !! n).
Definition segmentation_of (w : World) (n : string) : Segmentation :=
  default [] (segmentations w !! n).

(** ** Statements: state plus exceptions *)

Inductive Outcome (A : Type) :=
| Returned (a : A)
| Raised (e : PyException).
Arguments Returned {A} a.
Arguments Raised {A} e.

(** Effects made before an exception stay in the world. *)
Definition Py (A : Type) : Type := World -> Outcome A * World.

#[global] Instance Py_ret : MRet Py := fun A a w => (Returned a, w).
#[global] Instance Py_bind : MBind Py := fun A B f m w =>
  match m w with
  | (Returned a, w') => f a w'
  | (Raised e, w') => (Raised e, w')
  end.

Definition raise {A} (e : PyException) : Py A := fun w => (Raised e, w).
Definition gets {A} (f : World -> A) : Py A := fun w => (Returned (f w), w).
Definition modify (f : World -> World) : Py unit := fun w => (Returned tt, f w).

(** What a statement establishes from a world: [Q] when it returns, [E]
    when it raises. *)
Definition wp {A} (m : Py A) (Q : A -> World -> Prop) (E : PyException -> World -> Prop)
    (w : World) : Prop :=
  match m w with
  | (Returned a, w') => Q a w'
  | (Raised e, w') => E e w'
  end.

(** ** HDBrainExtractionToolLogic *)

Section Logic.

(** The collaborators outside the module. *)

(** Path of the n-th folder [slicer.util.tempDirectory] creates. *)
Variable temp_path : nat -> string.
(** [HD_BET.__path__[0]]. *)
Variable HD_BET_path : string.
(** The external tool: from its arguments and the disk to the disk it
    leaves, and whether it returned ([true]) or raised ([false]). *)
Variable hd_bet : RunArgs -> gmap string ImageData -> gmap string ImageData * bool.
(** What the segmentation storage node makes of a node when it reads a
    labelmap file into it. *)
Variable read_labelmap : ImageData -> Segmentation -> Segmentation.

Definition os_path_join (a b : string) : string := a +:+ "/" +:+ b.

Definition tempDirectory : Py string := fun w =>
  let path := temp_path (length (temp_dirs w)) in
  (Returned path, log_event (EvTempDirectory path) (add_temp_dir path w)).

(** [volumeStorageNode.SetFileName(f); volumeStorageNode.WriteData(node)] *)
Definition WriteData (f node : string) : Py unit := fun w =>
  (Returned tt, log_event (EvWriteData f node) (set_disk (<[f := volume_of w node]> (disk w)) w)).

(** [storageNode.SetFileName(f); storageNode.ReadData(node)]: a missing
    file makes the read fail with a return value, not with an exception. *)
Definition ReadVolumeData (f node : string) : Py unit := fun w =>
  let w1 := log_event (EvReadVolume f node) w in
  match disk w !! f with
  | Some img => (Returned tt, set_volume node img w1)
  | None => (Returned tt, w1)
  end.

Definition ReadSegmentationData (f node : string) : Py unit := fun w =>
  let w1 := log_event (EvReadSegmentation f node) w in
  match disk w !! f with
  | Some img => (Returned tt, set_segmentation node (read_labelmap img (segmentation_of w node)) w1)
  | None => (Returned tt, w1)
  end.

Definition os_remove (f : string) : Py unit := fun w =>
  let w1 := log_event (EvRemove f) w in
  match disk w !! f with
  | Some _ => (Returned tt, set_disk (delete f (disk w)) w1)
  | None => (Raised (FileNotFoundError f), w1)
  end.

(** The call of the tool.  The call is not guarded: what the tool raises
    leaves [process] as it is, here as [ToolError] whatever its type. *)
Definition run_hd_bet (args : RunArgs) : Py unit := fun w =>
  let w1 := log_event (EvRunHdBet args) w in
  match hd_bet args (disk w) with
  | (d, true) => (Returned tt, set_disk d w1)
  | (d, false) => (Raised ToolError, set_disk d w1)
  end.

(** A method call on the object [outputSegmentation...GetSegment(segmentId)]
    returned: on [None] the attribute lookup raises. *)
Definition segment_call (node : string) (segment : option string) (method : string)
    (f : Segment -> Segment) : Py unit :=
  match segment with
  | None => raise (AttributeError method)
  | Some sid => modify (fun w => set_segmentation node (modify_segment f sid (segmentation_of w node)) w)
  end.

Definition terminology : string :=
  "Segmentation category and type - 3D Slicer General Anatomy list"
  +:+ "~SCT^123037004^Anatomical Structure"
  +:+ "~SCT^12738006^Brain"
  +:+ "~^^"
  +:+ "~Anatomic codes - DICOM master list"
  +:+ "~^^"
  +:+ "~^^".

(** [process]: the nodes are passed by node ID, [None] for a missing one (a
    node object is true as a Python value, so [if outputVolume:] and
    [outputVolume is not None] agree).  The log messages and the timing
    around the body have no part in the result and are left out.  So are
    the import statements in the body (PyTorchUtils, os, HD_BET): the model
    is of the routine in an installation where they succeed, as they do
    after [setupPythonRequirements]; where one fails, the routine raises
    there, before it has created or changed anything. *)
Definition process (inputVolume outputVolume outputSegmentation : option string)
    (device : Device) : Py unit :=
  match inputVolume with
  | None => raise (ValueError "Input or output volume is invalid")
  | Some inputNode =>
    let device := if negb (truthy device) then DevStr "auto" else device in
    device ← (if py_eq device (DevStr "auto")
              then c ← gets cuda; mret (if (c : bool) then DevInt 0 else DevStr "cpu")
              else mret device);
    (* Create new empty folder *)
    tempFolder ← tempDirectory;
    let input_file := tempFolder +:+ "/hdbet-input.nii.gz" in
    let output_file := tempFolder +:+ "/hdbet-output.nii.gz" in
    let output_segmentation_file := tempFolder +:+ "/hdbet-output_mask.nii.gz" in
    (* Write input volume to file *)
    WriteData input_file inputNode;;
    (* Run the algorithm *)
    let '(mode, enable_augmentation) :=
      if negb (py_eq device (DevStr "cpu")) then ("accurate", true) else ("fast", false) in
    let save_mask := bool_decide (outputSegmentation ≠ None) in
    let save_masked_volume := bool_decide (outputVolume ≠ None) in
    let config_file := os_path_join HD_BET_path "config.py" in
    run_hd_bet (mkRunArgs [input_file] [output_file] mode config_file device
                  true enable_augmentation save_mask true save_masked_volume);;
    (* Input file is no longer needed *)
    os_remove input_file;;
    (* Read results from output files *)
    match outputVolume with
    | Some node => ReadVolumeData output_file node;; os_remove output_file
    | None => mret tt
    end;;
    match outputSegmentation with
    | Some node =>
        ReadSegmentationData output_segmentation_file node;;
        os_remove output_segmentation_file;;
        (* Set segment terminology *)
        segmentId ← gets (fun w => GetNthSegmentID (segmentation_of w node) 0);
        segment ← gets (fun w => const segmentId <$> GetSegment (segmentation_of w node) segmentId);
        segment_call node segment "SetTag" (SetTag GetTerminologyEntryTagName terminology);;
        segment_call node segment "SetName" (SetName "brain");;
        segment_call node segment "SetColor"
          (SetColor 0.9803921568627451 0.9803921568627451 0.8823529411764706)
    | None => mret tt
    end
  end.

(** The device [process] hands to the tool for a [device] argument, and the
    call it makes with it. *)
Definition device_used (device : Device) (c : bool) : Device :=
  let device := if negb (truthy device) then DevStr "auto" else device in
  if py_eq device (DevStr "auto") then (if c then DevInt 0 else DevStr "cpu") else device.

Definition tool_args (tempFolder : string) (outputVolume outputSegmentation : option string)
    (device : Device) : RunArgs :=
  mkRunArgs [tempFolder +:+ "/hdbet-input.nii.gz"] [tempFolder +:+ "/hdbet-output.nii.gz"]
    (if negb (py_eq device (DevStr "cpu")) then "accurate" else "fast")
    (os_path_join HD_BET_path "config.py") device
    true (negb (py_eq device (DevStr "cpu")))
    (bool_decide (outputSegmentation ≠ None)) true (bool_decide (outputVolume ≠ None)).

Definition setDefaultParameters (parameterNode : ParameterNode) : ParameterNode :=
  if negb (truthy_str (GetParameter parameterNode "Device"))
  then SetParameter "Device" "auto" parameterNode
  else parameterNode.

End Logic.

(** ** The two halves of [process]

    [process], cut at its call of the tool: the world in which the tool is
    called, and the statements that follow the call. *)

Section ProcessParts.

Variable temp_path : nat -> string.
Variable read_labelmap : ImageData -> Segmentation -> Segmentation.

(** The statements of [process] after the tool has run: the input file is
    removed and the requested results are read back. *)
Definition read_results (tempFolder : string) (outputVolume outputSegmentation : option string)
  : Py unit :=
  os_remove (tempFolder +:+ "/hdbet-input.nii.gz");;
  match outputVolume with
  | Some node =>
      ReadVolumeData (tempFolder +:+ "/hdbet-output.nii.gz") node;;
      os_remove (tempFolder +:+ "/hdbet-output.nii.gz")
  | None => mret tt
  end;;
  match outputSegmentation with
  | Some node =>
      ReadSegmentationData read_labelmap (tempFolder +:+ "/hdbet-output_mask.nii.gz") node;;
      os_remove (tempFolder +:+ "/hdbet-output_mask.nii.gz");;
      segmentId ← gets (fun w => GetNthSegmentID (segmentation_of w node) 0);
      segment ← gets (fun w => const segmentId <$> GetSegment (segmentation_of w node) segmentId);
      segment_call node segment "SetTag" (SetTag GetTerminologyEntryTagName terminology);;
      segment_call node segment "SetName" (SetName "brain");;
      segment_call node segment "SetColor"
        (SetColor 0.9803921568627451 0.9803921568627451 0.8823529411764706)
  | None => mret tt
  end.

(** The world in which [process] calls the tool: the temp folder is made and
    the input volume is written into it. *)
Definition input_written (inputNode : string) (w : World) : World :=
  let tmp := temp_path (length (temp_dirs w)) in
  let input_file := tmp +:+ "/hdbet-input.nii.gz" in
  log_event (EvWriteData input_file inputNode)
    (set_disk (<[input_file := volume_of w inputNode]> (disk w))
       (log_event (EvTempDirectory tmp) (add_temp_dir tmp w))).

Variable HD_BET_path : string.
Variable hd_bet : RunArgs -> gmap string ImageData -> gmap string ImageData * bool.

(** What the tool does in a run of [process] on an input volume: the disk
    it leaves, and whether it returned ([true]) or raised ([false]). *)
Definition tool_run (inputNode : string) (outputVolume outputSegmentation : option string)
    (device : Device) (w : World) : gmap string ImageData * bool :=
  hd_bet
    (tool_args HD_BET_path (temp_path (length (temp_dirs w))) outputVolume outputSegmentation
       (device_used device (cuda w)))
    (disk (input_written inputNode w)).

End ProcessParts.

(** ** HDBrainExtractionToolWidget: the binding of GUI and parameter node *)

Record UI := mkUI {
  inputVolumeSelector : option string;
  outputVolumeSelector : option string;
  outputSegmentationSelector : option string;
  deviceComboBox : Z;
  applyButton_toolTip : string;
  applyButton_enabled : bool;
  outputVolumeSelector_baseName : string;
  outputSegmentationSelector_baseName : string;
}.

Inductive GuiEvent :=
| CallUpdateGUIFromParameterNode (updating : bool)
| CallUpdateParameterNodeFromGUI (updating : bool)
| WriteNodeReferenceID (role nodeID : string)
| WriteParameter (k v : string)
| ModifiedEvent (node : string).

Record Widget := mkWidget {
  scene_nodes : gmap string string;
  parameter_nodes : gmap string ParameterNode;
  observed : list string;
  _parameterNode : option string;
  _updatingGUIFromParameterNode : bool;
  ui : UI;
  trace : list GuiEvent;
}.

Definition set_ui (u : UI) (w : Widget) : Widget :=
  mkWidget (scene_nodes w) (parameter_nodes w) (observed w) (_parameterNode w)
    (_updatingGUIFromParameterNode w) u (trace w).
Definition set_updating (b : bool) (w : Widget) : Widget :=
  mkWidget (scene_nodes w) (parameter_nodes w) (observed w) (_parameterNode w) b (ui w) (trace w).
Definition set_parameter_node (p : string) (pn : ParameterNode) (w : Widget) : Widget :=
  mkWidget (scene_nodes w) (<[p := pn]> (parameter_nodes w)) (observed w) (_parameterNode w)
    (_updatingGUIFromParameterNode w) (ui w) (trace w).
Definition record (e : list GuiEvent) (w : Widget) : Widget :=
  mkWidget (scene_nodes w) (parameter_nodes w) (observed w) (_parameterNode w)
    (_updatingGUIFromParameterNode w) (ui w) (trace w ++ e).

Definition parameter_node_of (w : Widget) (p : string) : ParameterNode :=
  default (mkParameterNode ∅ ∅) (parameter_nodes w !! p).

Definition GetName (w : Widget) (node : string) : string := default "" (scene_nodes w !! node).

(** [selector.currentNodeID]: empty when no node is selected. *)
Definition currentNodeID (sel : option string) : string := default "" sel.

Section Widget.

(** The entries of the device combo box, from the module's .ui file. *)
Variable deviceItems : list string.

Definition currentText (u : UI) : string :=
  if deviceComboBox u <? 0 then "" else nth (Z.to_nat (deviceComboBox u)) deviceItems "".

Fixpoint findText (items : list string) (text : string) (i : Z) : Z :=
  match items with
  | [] => -1
  | x :: rest => if String.eqb x text then i else findText rest text (i + 1)
  end.

(** A slot connected to a widget signal; [None] when the call depth the
    model allows is used up. *)
Definition Slot := Widget -> option Widget.

(** The selectors' [setCurrentNode] and the combo box's [setCurrentText]:
    the widget changes, and if it did, its signal runs the connected slot. *)
Definition inputVolumeSelector_setCurrentNode (slot : Slot) (node : option string) : Slot := fun w =>
  let u := ui w in
  if bool_decide (inputVolumeSelector u = node) then Some w
  else slot (set_ui (mkUI node (outputVolumeSelector u) (outputSegmentationSelector u)
               (deviceComboBox u) (applyButton_toolTip u) (applyButton_enabled u)
               (outputVolumeSelector_baseName u) (outputSegmentationSelector_baseName u)) w).

Definition outputVolumeSelector_setCurrentNode (slot : Slot) (node : option string) : Slot := fun w =>
  let u := ui w in
  if bool_decide (outputVolumeSelector u = node) then Some w
  else slot (set_ui (mkUI (inputVolumeSelector u) node (outputSegmentationSelector u)
               (deviceComboBox u) (applyButton_toolTip u) (applyButton_enabled u)
               (outputVolumeSelector_baseName u) (outputSegmentationSelector_baseName u)) w).

Definition outputSegmentationSelector_setCurrentNode (slot : Slot) (node : option string) : Slot :=
  fun w =>
  let u := ui w in
  if bool_decide (outputSegmentationSelector u = node) then Some w
  else slot (set_ui (mkUI (inputVolumeSelector u) (outputVolumeSelector u) node
               (deviceComboBox u) (applyButton_toolTip u) (applyButton_enabled u)
               (outputVolumeSelector_baseName u) (outputSegmentationSelector_baseName u)) w).

Definition deviceComboBox_setCurrentText (slot : Slot) (text : string) : Slot := fun w =>
  let u := ui w in
  let i := findText deviceItems text 0 in
  if (i <? 0) || (i =? deviceComboBox u) then Some w
  else slot (set_ui (mkUI (inputVolumeSelector u) (outputVolumeSelector u)
               (outputSegmentationSelector u) i (applyButton_toolTip u) (applyButton_enabled u)
               (outputVolumeSelector_baseName u) (outputSegmentationSelector_baseName u)) w).

Definition set_applyButton (toolTip : string) (enabled : bool) (w : Widget) : Widget :=
  let u := ui w in
  set_ui (mkUI (inputVolumeSelector u) (outputVolumeSelector u) (outputSegmentationSelector u)
            (deviceComboBox u) toolTip enabled
            (outputVolumeSelector_baseName u) (outputSegmentationSelector_baseName u)) w.

Definition set_baseNames (volumeName segmentationName : string) (w : Widget) : Widget :=
  let u := ui w in
  set_ui (mkUI (inputVolumeSelector u) (outputVolumeSelector u) (outputSegmentationSelector u)
            (deviceComboBox u) (applyButton_toolTip u) (applyButton_enabled u)
            volumeName segmentationName) w.

(** The four writes of [updateParameterNodeFromGUI], made in one batch. *)
Definition writes_from_GUI (u : UI) : list GuiEvent :=
  [ WriteNodeReferenceID "InputVolume" (currentNodeID (inputVolumeSelector u));
    WriteNodeReferenceID "OutputVolume" (currentNodeID (outputVolumeSelector u));
    WriteNodeReferenceID "OutputSegmentation" (currentNodeID (outputSegmentationSelector u));
    WriteParameter "Device" (currentText u) ].

Definition parameter_node_from_GUI (u : UI) (pn : ParameterNode) : ParameterNode :=
  SetParameter "Device" (currentText u)
    (SetNodeReferenceID "OutputSegmentation" (currentNodeID (outputSegmentationSelector u))
      (SetNodeReferenceID "OutputVolume" (currentNodeID (outputVolumeSelector u))
        (SetNodeReferenceID "InputVolume" (currentNodeID (inputVolumeSelector u)) pn))).

(** [EndModify]: if the batch changed the node, its ModifiedEvent runs the
    observer the widget registered on that node. *)
Definition EndModify (observer : Slot) (p : string) (before : ParameterNode) : Slot := fun w =>
  if bool_decide (parameter_node_of w p = before) then Some w
  else
    let w1 := record [ModifiedEvent p] w in
    if bool_decide (p ∈ observed w) then observer w1 else Some w1.

(** [updateGUIFromParameterNode], with the slot its widget signals run. *)
Definition updateGUIFromParameterNode_body (slot : Slot) : Slot := fun w =>
  let w := record [CallUpdateGUIFromParameterNode (_updatingGUIFromParameterNode w)] w in
  match _parameterNode w with
  | None => Some w
  | Some p =>
    if _updatingGUIFromParameterNode w then Some w else
    (* Make sure GUI changes do not call updateParameterNodeFromGUI *)
    let w := set_updating true w in
    (* Update node selectors and sliders *)
    w ← inputVolumeSelector_setCurrentNode slot
           (GetNodeReference (scene_nodes w) (parameter_node_of w p) "InputVolume") w;
    w ← outputVolumeSelector_setCurrentNode slot
           (GetNodeReference (scene_nodes w) (parameter_node_of w p) "OutputVolume") w;
    w ← outputSegmentationSelector_setCurrentNode slot
           (GetNodeReference (scene_nodes w) (parameter_node_of w p) "OutputSegmentation") w;
    w ← deviceComboBox_setCurrentText slot (GetParameter (parameter_node_of w p) "Device") w;
    (* Update buttons states and tooltips *)
    let inputVolume := GetNodeReference (scene_nodes w) (parameter_node_of w p) "InputVolume" in
    let w :=
      if bool_decide (is_Some inputVolume)
         && (bool_decide (is_Some (GetNodeReference (scene_nodes w) (parameter_node_of w p)
                                     "OutputVolume"))
             || bool_decide (is_Some (GetNodeReference (scene_nodes w) (parameter_node_of w p)
                                        "OutputSegmentation")))
      then set_applyButton "Extract brain" true w
      else set_applyButton "Select input volume and at least one output" false w in
    let w :=
      match inputVolume with
      | Some v => set_baseNames (GetName w v +:+ " stripped") (GetName w v +:+ " mask") w
      | None => w
      end in
    (* All the GUI updates are done *)
    Some (set_updating false w)
  end.

(** [updateParameterNodeFromGUI], with the observer of the parameter node. *)
Definition updateParameterNodeFromGUI_body (observer : Slot) : Slot := fun w =>
  let w := record [CallUpdateParameterNodeFromGUI (_updatingGUIFromParameterNode w)] w in
  match _parameterNode w with
  | None => Some w
  | Some p =>
    if _updatingGUIFromParameterNode w then Some w else
    (* Modify all properties in a single batch *)
    let before := parameter_node_of w p in
    let w := record (writes_from_GUI (ui w))
               (set_parameter_node p (parameter_node_from_GUI (ui w) before) w) in
    EndModify observer p before w
  end.

(** The two methods call each other through the signals: the widget
    signals run [updateParameterNodeFromGUI], the parameter node's
    ModifiedEvent runs [updateGUIFromParameterNode].  [depth] bounds the
    nesting of these calls. *)
Fixpoint updateGUIFromParameterNode (depth : nat) : Slot :=
  match depth with
  | O => fun _ => None
  | S depth' => updateGUIFromParameterNode_body (updateParameterNodeFromGUI depth')
  end
with updateParameterNodeFromGUI (depth : nat) : Slot :=
  match depth with
  | O => fun _ => None
  | S depth' => updateParameterNodeFromGUI_body (updateGUIFromParameterNode depth')
  end.

(** [onApplyButton]: the device it hands to [process]. *)
Definition onApplyButton_device (u : UI) : Device :=
  if deviceComboBox u =? 0 then DevStr "auto"
  else if deviceComboBox u =? 1 then DevStr "cpu"
  else DevInt (deviceComboBox u - 2).

End Widget.

(** The writes to the parameter node that a trace records. *)
Definition is_write (e : GuiEvent) : bool :=
  match e with
  | WriteNodeReferenceID _ _ | WriteParameter _ _ => true
  | _ => false
  end.

Definition writes (t : list GuiEvent) : list GuiEvent := List.filter is_write t.

(** ** The widget's life cycle *)

Definition set_observed (o : list string) (w : Widget) : Widget :=
  mkWidget (scene_nodes w) (parameter_nodes w) o (_parameterNode w)
    (_updatingGUIFromParameterNode w) (ui w) (trace w).
Definition set__parameterNode (p : option string) (w : Widget) : Widget :=
  mkWidget (scene_nodes w) (parameter_nodes w) (observed w) p
    (_updatingGUIFromParameterNode w) (ui w) (trace w).

(** The observations of [VTKObservationMixin], all of them of ModifiedEvent
    with [updateGUIFromParameterNode]: one is added only if it is not there
    yet, and removing one removes every entry for that node. *)
Definition addObserver (p : string) (w : Widget) : Widget :=
  if bool_decide (p ∈ observed w) then w else set_observed (observed w ++ [p]) w.
Definition removeObserver (p : string) (w : Widget) : Widget :=
  set_observed (List.filter (fun q => negb (String.eqb q p)) (observed w)) w.

Section WidgetLifeCycle.

Variable deviceItems : list string.
(** The node [logic.getParameterNode()] returns: the module's one
    parameter node, which the host creates empty when the scene has none. *)
Variable moduleParameterNode : string.
(** [slicer.mrmlScene.GetFirstNodeByClass("vtkMRMLScalarVolumeNode")] on a
    scene, as the node's ID. *)
Variable firstVolumeNode : gmap string string -> option string.

(** A change of a parameter node made outside a batch: the node's
    ModifiedEvent runs its observer at once, if the change changed it. *)
Definition modify_parameter_node (observer : Slot) (p : string) (events : list GuiEvent)
    (f : ParameterNode -> ParameterNode) : Slot := fun w =>
  let before := parameter_node_of w p in
  EndModify observer p before (record events (set_parameter_node p (f before) w)).

(** [self.logic.setDefaultParameters(node)] on a node of the scene. *)
Definition logic_setDefaultParameters (observer : Slot) (p : string) : Slot := fun w =>
  if negb (truthy_str (GetParameter (parameter_node_of w p) "Device"))
  then modify_parameter_node observer p [WriteParameter "Device" "auto"] setDefaultParameters w
  else Some w.

Definition setParameterNode (depth : nat) (inputParameterNode : option string) : Slot := fun w =>
  w ← match inputParameterNode with
      | Some p => logic_setDefaultParameters (updateGUIFromParameterNode deviceItems depth) p w
      | None => Some w
      end;
  (* Unobserve previously selected parameter node and add an observer to the newly selected *)
  let w := match _parameterNode w with Some q => removeObserver q w | None => w end in
  let w := set__parameterNode inputParameterNode w in
  let w := match _parameterNode w with Some q => addObserver q w | None => w end in
  (* Initial GUI update *)
  updateGUIFromParameterNode deviceItems depth w.

(** [initializeParameterNode]: after [setParameterNode] the widget has its
    parameter node, so the branch without one is never taken; it stands for
    the AttributeError Python would raise there. *)
Definition initializeParameterNode (depth : nat) : Slot := fun w =>
  w ← setParameterNode depth (Some moduleParameterNode) w;
  match _parameterNode w with
  | None => Some w
  | Some p =>
    (* Select default input nodes if nothing is selected yet *)
    if negb (bool_decide (is_Some (GetNodeReference (scene_nodes w) (parameter_node_of w p)
                                     "InputVolume")))
    then
      match firstVolumeNode (scene_nodes w) with
      | Some v =>
          modify_parameter_node (updateGUIFromParameterNode deviceItems depth) p
            [WriteNodeReferenceID "InputVolume" v] (SetNodeReferenceID "InputVolume" v) w
      | None => Some w
      end
    else Some w
  end.


(** [exit]: without a parameter node no observation matches and nothing is
    removed. *)
Definition exit (w : Widget) : Widget :=
  match _parameterNode w with
  | Some q => removeObserver q w
  | None => w
  end.


Definition onSceneStartClose (depth : nat) : Slot := setParameterNode depth None.

(** [isEntered] is [self.parent.isEntered]: whether the module is shown. *)
Definition onSceneEndClose (depth : nat) (isEntered : bool) : Slot := fun w =>
  if isEntered then initializeParameterNode depth w else Some w.

End WidgetLifeCycle.

(** [onApplyButton]: its call of [process], on the nodes the selectors show
    and the device of the combo box. *)
Definition onApplyButton_process (temp_path : nat -> string) (HD_BET_path : string)
    (hd_bet : RunArgs -> gmap string ImageData -> gmap string ImageData * bool)
    (read_labelmap : ImageData -> Segmentation -> Segmentation) (u : UI) : Py unit :=
  process temp_path HD_BET_path hd_bet read_labelmap
    (inputVolumeSelector u) (outputVolumeSelector u) (outputSegmentationSelector u)
    (onApplyButton_device u).

(** The widgets a refresh changes, and with them the signals it sends. *)
Definition shown_device (deviceItems : list string) (text : string) (index : Z) : Z :=
  let i := findText deviceItems text 0 in
  if (i <? 0) || (i =? index) then index else i.

(** A slot that returns at once while the GUI is being refreshed. *)
Definition blocked (slot : Slot) : Prop :=
  forall v, _updatingGUIFromParameterNode v = true ->
    slot v = Some (record [CallUpdateParameterNodeFromGUI true] v).

(** From [w] to [w1] only widgets changed, under the re-entrancy flag: the
    scene and the parameter nodes are the same, and the trace grew by
    blocked calls of [updateParameterNodeFromGUI] only. *)
Definition refreshing (w w1 : Widget) : Prop :=
  scene_nodes w1 = scene_nodes w
  /\ parameter_nodes w1 = parameter_nodes w
  /\ observed w1 = observed w
  /\ _parameterNode w1 = _parameterNode w
  /\ _updatingGUIFromParameterNode w1 = true
  /\ exists k, trace w1 = (trace w ++ replicate k (CallUpdateParameterNodeFromGUI true))%list.

(** ** What the GUI shows and what the widget observes *)

(** What a node selector can show: nothing, or a node of the scene. *)
Definition selectable (scene : gmap string string) (sel : option string) : Prop :=
  match sel with
  | Some nodeID => nodeID ≠ "" /\ is_Some (scene !! nodeID)
  | None => True
  end.

(** The signal of a widget that is set: none when its value is the same. *)
Definition sent (same : bool) : list GuiEvent :=
  if same then [] else [CallUpdateParameterNodeFromGUI true].

(** The GUI shows the parameter node [p]: the node selectors show the
    nodes it refers to, and the Apply button is enabled when it refers to
    an input volume and to an output. *)
Definition shows (w : Widget) (p : string) : Prop :=
  let pn := parameter_node_of w p in
  let input := GetNodeReference (scene_nodes w) pn "InputVolume" in
  let output := GetNodeReference (scene_nodes w) pn "OutputVolume" in
  let segmentation := GetNodeReference (scene_nodes w) pn "OutputSegmentation" in
  inputVolumeSelector (ui w) = input
  /\ outputVolumeSelector (ui w) = output
  /\ outputSegmentationSelector (ui w) = segmentation
  /\ applyButton_enabled (ui w)
     = bool_decide (is_Some input)
       && (bool_decide (is_Some output) || bool_decide (is_Some segmentation)).

(** What a refresh leaves of a widget that is not being refreshed, with
    or without a parameter node. *)
Definition refreshed (w w' : Widget) : Prop :=
  scene_nodes w' = scene_nodes w
  /\ parameter_nodes w' = parameter_nodes w
  /\ observed w' = observed w
  /\ _parameterNode w' = _parameterNode w
  /\ _updatingGUIFromParameterNode w' = false
  /\ match _parameterNode w with
     | None => ui w' = ui w
     | Some p => shows w' p
     end.

(** The observations left when the widget lets go of its parameter node. *)
Definition unobserved (w : Widget) : list string :=
  match _parameterNode w with
  | Some q => List.filter (fun x => negb (String.eqb x q)) (observed w)
  | None => observed w
  end.


(** ** A concrete environment

    Stand-ins for the collaborators, to run the model on concrete worlds. *)

Module Demo.

Definition temp_path (n : nat) : string :=
  "/tmp/Slicer/__SlicerTemp__" +:+ String.concat "" (replicate n "_").

Definition HD_BET_path : string := "/opt/Slicer/HD_BET".

(** [out_fname[:-7] + "_mask.nii.gz"] *)
Definition mask_fname (out_fname : string) : string :=
  String.substring 0 (String.length out_fname - 7) out_fname +:+ "_mask.nii.gz".

(** A tool that follows the file protocol of HD-BET's [run_hd_bet] (the mask
    is written beside the output file, the masked image only with [bet], and
    the mask is removed again without [keep_mask]) and thresholds the image
    instead of running a network.  It raises when its input file is missing. *)
Definition threshold_tool (args : RunArgs) (d : gmap string ImageData)
  : gmap string ImageData * bool :=
  match mri_fnames args, output_fnames args with
  | [i], [o] =>
      match d !! i with
      | Some img =>
          let mask := (fun v => if 0 <? v then 1 else 0) <$> img in
          let d := <[mask_fname o := mask]> d in
          let d := if bet args then <[o := zip_with Z.mul img mask]> d else d in
          let d := if keep_mask args then d else delete (mask_fname o) d in
          (d, true)
      | None => (d, false)
      end
  | _, _ => (d, false)
  end.

(** A tool that raises and leaves the disk as it found it. *)
Definition failing_tool (args : RunArgs) (d : gmap string ImageData)
  : gmap string ImageData * bool := (d, false).

Definition new_segment : Segment :=
  mkSegment "Segment_1" ∅ ((1 # 2)%Q, (1 # 2)%Q, (1 # 2)%Q).

(** A reader of binary labelmaps: the node gets one segment when the mask
    marks any voxel, none otherwise. *)
Definition read_binary_labelmap (img : ImageData) (s : Segmentation) : Segmentation :=
  if existsb (fun v => negb (v =? 0)) img then [("Segment_1", new_segment)] else [].

Definition world : World :=
  mkWorld ∅ [] {["vtkMRMLScalarVolumeNode1" := [0; 3; 5; 0]]} ∅ false [].

Definition run := process temp_path HD_BET_path threshold_tool read_binary_labelmap.
Definition run_failing := process temp_path HD_BET_path failing_tool read_binary_labelmap.

Definition input_node : string := "vtkMRMLScalarVolumeNode1".
Definition input_file : string := "/tmp/Slicer/__SlicerTemp__/hdbet-input.nii.gz".
Definition output_file : string := "/tmp/Slicer/__SlicerTemp__/hdbet-output.nii.gz".
Definition output_segmentation_file : string :=
  "/tmp/Slicer/__SlicerTemp__/hdbet-output_mask.nii.gz".

(** The module's widget on a scene with a volume and a segmentation, the
    parameter node referring to both, before the GUI was ever refreshed. *)
Definition deviceItems : list string := ["auto"; "cpu"; "GPU 0"; "GPU 1"].

Definition parameter_node : ParameterNode :=
  mkParameterNode
    {["InputVolume" := "vtkMRMLScalarVolumeNode1";
      "OutputSegmentation" := "vtkMRMLSegmentationNode1"]}
    {["Device" := "cpu"]}.

Definition widget : Widget :=
  mkWidget
    {["vtkMRMLScalarVolumeNode1" := "MRBrainTumor1";
      "vtkMRMLSegmentationNode1" := "Segmentation"]}
    {["vtkMRMLScriptedModuleNode1" := parameter_node]}
    ["vtkMRMLScriptedModuleNode1"]
    (Some "vtkMRMLScriptedModuleNode1")
    false
    (mkUI None None None 0 "" false "" "")
    [].

End Demo.

(** ** Further runs

    A tool that returns without writing anything, a scene whose input
    volume is blank, so that the mask the tool writes marks no voxel, a
    tool whose mask has several labels, and further states of the widget. *)

Module Cases.

Definition idle_tool (args : RunArgs) (d : gmap string ImageData)
  : gmap string ImageData * bool := (d, true).

Definition blank_world : World :=
  mkWorld ∅ [] {["vtkMRMLScalarVolumeNode1" := [0; 0; 0; 0]]} ∅ false [].

Definition run_idle :=
  process Demo.temp_path Demo.HD_BET_path idle_tool Demo.read_binary_labelmap.

(** A tool that writes a mask with the labels of the image it is given,
    and a reader that makes one segment of every label of a mask. *)
Definition label_tool (args : RunArgs) (d : gmap string ImageData)
  : gmap string ImageData * bool :=
  match mri_fnames args, output_fnames args with
  | [i], [o] =>
      match d !! i with
      | Some img =>
          let d := <[Demo.mask_fname o := img]> d in
          let d := if bet args then <[o := img]> d else d in
          let d := if keep_mask args then d else delete (Demo.mask_fname o) d in
          (d, true)
      | None => (d, false)
      end
  | _, _ => (d, false)
  end.

Definition read_labels (img : ImageData) (s : Segmentation) : Segmentation :=
  (fun v : Z => let name := "Segment_" +:+ pretty v in
                (name, mkSegment name ∅ ((1 # 2)%Q, (1 # 2)%Q, (1 # 2)%Q)))
  <$> remove_dups (List.filter (fun v => negb (v =? 0)) img).

Definition run_labels := process Demo.temp_path Demo.HD_BET_path label_tool read_labels.

(** The widget of [Demo] after the user has chosen the input volume, the
    output segmentation and the entry "cpu". *)
Definition chosen : Widget :=
  set_ui (mkUI (Some "vtkMRMLScalarVolumeNode1") None (Some "vtkMRMLSegmentationNode1") 1
            "" false "" "") Demo.widget.

(** The first volume of a scene in which the only volume can be
    "vtkMRMLScalarVolumeNode1". *)
Definition firstVolumeNode (scene : gmap string string) : option string :=
  if bool_decide (is_Some (scene !! "vtkMRMLScalarVolumeNode1"))
  then Some "vtkMRMLScalarVolumeNode1" else None.

(** The parameter node the host creates when the scene has none. *)
Definition new_parameter_node : string := "vtkMRMLScriptedModuleNode2".

End Cases.

(** * Properties *)

(** ** Rules for statements *)

Section Rules.

Context {A B : Type}.
Implicit Types (Q : A -> World -> Prop) (E : PyException -> World -> Prop).

Lemma wp_ret (a : A) Q E w : Q a w -> wp (mret a) Q E w.
Proof. done. Qed.

Lemma wp_raise e Q E w : E e w -> wp (raise e) Q E w.
Proof. done. Qed.

Lemma wp_gets (f : World -> A) Q E w : Q (f w) w -> wp (gets f) Q E w.
Proof. done. Qed.

Lemma wp_bind (m : Py B) (f : B -> Py A) Q E w :
  wp m (fun b => wp (f b) Q E) E w -> wp (m ≫= f) Q E w.
Proof.
  unfold wp, mbind, Py_bind. destruct (m w) as [[b|e] w1]; done.
Qed.

Lemma wp_mono (m : Py A) Q Q' E E' w :
  (forall a w', Q a w' -> Q' a w') -> (forall e w', E e w' -> E' e w') ->
  wp m Q E w -> wp m Q' E' w.
Proof.
  unfold wp. intros HQ HE. destruct (m w) as [[a|e] w1]; auto.
Qed.

Lemma wp_returned (m : Py A) Q E w a w' :
  wp m Q E w -> m w = (Returned a, w') -> Q a w'.
Proof. unfold wp. intros H Hrun. by rewrite Hrun in H. Qed.

Lemma wp_raised (m : Py A) Q E w e w' :
  wp m Q E w -> m w = (Raised e, w') -> E e w'.
Proof. unfold wp. intros H Hrun. by rewrite Hrun in H. Qed.

End Rules.

Section LogicRules.

Context (temp_path : nat -> string)
  (hd_bet : RunArgs -> gmap string ImageData -> gmap string ImageData * bool)
  (read_labelmap : ImageData -> Segmentation -> Segmentation).
Implicit Types (Q : unit -> World -> Prop) (E : PyException -> World -> Prop).

Lemma wp_modify f Q E w : Q tt (f w) -> wp (modify f) Q E w.
Proof. done. Qed.

Lemma wp_tempDirectory (Q : string -> World -> Prop) E w :
  (let path := temp_path (length (temp_dirs w)) in
   Q path (log_event (EvTempDirectory path) (add_temp_dir path w))) ->
  wp (tempDirectory temp_path) Q E w.
Proof. done. Qed.

Lemma wp_WriteData f node Q E w :
  Q tt (log_event (EvWriteData f node) (set_disk (<[f := volume_of w node]> (disk w)) w)) ->
  wp (WriteData f node) Q E w.
Proof. done. Qed.

Lemma wp_run_hd_bet args Q E w :
  (forall d, hd_bet args (disk w) = (d, true) ->
     Q tt (set_disk d (log_event (EvRunHdBet args) w))) ->
  (forall d, hd_bet args (disk w) = (d, false) ->
     E ToolError (set_disk d (log_event (EvRunHdBet args) w))) ->
  wp (run_hd_bet hd_bet args) Q E w.
Proof.
  unfold wp, run_hd_bet. intros HQ HE.
  destruct (hd_bet args (disk w)) as [d [|]]; auto.
Qed.

Lemma wp_os_remove f Q E w :
  (forall img, disk w !! f = Some img ->
     Q tt (set_disk (delete f (disk w)) (log_event (EvRemove f) w))) ->
  (disk w !! f = None -> E (FileNotFoundError f) (log_event (EvRemove f) w)) ->
  wp (os_remove f) Q E w.
Proof.
  unfold wp, os_remove. intros HQ HE. destruct (disk w !! f) eqn:Hf; eauto.
Qed.

Lemma wp_ReadVolumeData f node Q E w :
  (forall img, disk w !! f = Some img ->
     Q tt (set_volume node img (log_event (EvReadVolume f node) w))) ->
  (disk w !! f = None -> Q tt (log_event (EvReadVolume f node) w)) ->
  wp (ReadVolumeData f node) Q E w.
Proof.
  unfold wp, ReadVolumeData. intros HS HN. destruct (disk w !! f) eqn:Hf; eauto.
Qed.

Lemma wp_ReadSegmentationData f node Q E w :
  (forall img, disk w !! f = Some img ->
     Q tt (set_segmentation node (read_labelmap img (segmentation_of w node))
             (log_event (EvReadSegmentation f node) w))) ->
  (disk w !! f = None -> Q tt (log_event (EvReadSegmentation f node) w)) ->
  wp (ReadSegmentationData read_labelmap f node) Q E w.
Proof.
  unfold wp, ReadSegmentationData. intros HS HN. destruct (disk w !! f) eqn:Hf; eauto.
Qed.

Lemma wp_segment_call node segment method f Q E w :
  (forall sid, segment = Some sid ->
     Q tt (set_segmentation node (modify_segment f sid (segmentation_of w node)) w)) ->
  (segment = None -> E (AttributeError method) w) ->
  wp (segment_call node segment method f) Q E w.
Proof.
  unfold segment_call. intros HS HN. destruct segment; [apply wp_modify | apply wp_raise]; auto.
Qed.

End LogicRules.

(** One step of a statement, whichever it is. *)
Ltac wp_step :=
  lazymatch goal with
  | |- wp (mbind _ _) _ _ _ => apply wp_bind
  | |- wp (mret _) _ _ _ => apply wp_ret
  | |- wp (raise _) _ _ _ => apply wp_raise
  | |- wp (gets _) _ _ _ => apply wp_gets
  | |- wp (modify _) _ _ _ => apply wp_modify
  | |- wp (tempDirectory _) _ _ _ => apply wp_tempDirectory; intros ?
  | |- wp (WriteData _ _) _ _ _ => apply wp_WriteData
  | |- wp (run_hd_bet _ _) _ _ _ => apply wp_run_hd_bet; intros ? ?
  | |- wp (os_remove _) _ _ _ => apply wp_os_remove; [intros ? ? | intros ?]
  | |- wp (ReadVolumeData _ _) _ _ _ => apply wp_ReadVolumeData; [intros ? ? | intros ?]
  | |- wp (ReadSegmentationData _ _ _) _ _ _ =>
      apply wp_ReadSegmentationData; [intros ? ? | intros ?]
  | |- wp (segment_call _ _ _ _) _ _ _ => apply wp_segment_call; [intros ? ? | intros ?]
  | |- wp (if ?b then _ else _) _ _ _ => destruct b eqn:?
  | |- wp (let '(_, _) := (if ?b then _ else _) in _) _ _ _ => destruct b eqn:?
  | |- wp (match ?o with Some _ => _ | None => _ end) _ _ _ => destruct o eqn:?
  | |- wp (let '(_, _) := ?p in _) _ _ _ => destruct p eqn:?
  end.

(** ** The processing routine *)

Lemma tool_calls_snoc l e :
  tool_calls (l ++ [e]) =
  (tool_calls l ++ match e with EvRunHdBet a => [a] | _ => [] end)%list.
Proof.
  unfold tool_calls. rewrite omap_app. f_equal. by destruct e.
Qed.

Section LogicFacts.

Context (temp_path : nat -> string) (HD_BET_path : string)
  (hd_bet : RunArgs -> gmap string ImageData -> gmap string ImageData * bool)
  (read_labelmap : ImageData -> Segmentation -> Segmentation).

Local Abbreviation process := (process temp_path HD_BET_path hd_bet read_labelmap).
Local Abbreviation tool_args := (tool_args HD_BET_path).

(** Whatever [process] does after its argument check, it calls the tool
    once, with [tool_args]. *)
Lemma process_tool_call inputNode ov os device w :
  let called w' :=
    tool_calls (io_log w') =
    (tool_calls (io_log w)
       ++ [tool_args (temp_path (length (temp_dirs w))) ov os (device_used device (cuda w))])%list in
  wp (process (Some inputNode) ov os device) (fun _ => called) (fun _ => called) w.
Proof.
  intros called. subst called. unfold process, device_used, tool_args.
  repeat wp_step.
  all: cbn in *; rewrite ?tool_calls_snoc; cbn; rewrite ?app_nil_r.
  all: done.
Qed.

Lemma process_tool_calls inputNode ov os device w :
  tool_calls (io_log (process (Some inputNode) ov os device w).2) =
  (tool_calls (io_log w)
     ++ [tool_args (temp_path (length (temp_dirs w))) ov os (device_used device (cuda w))])%list.
Proof.
  pose proof (process_tool_call inputNode ov os device w) as H.
  cbv zeta in H. unfold wp in H.
  by destruct (process (Some inputNode) ov os device w) as [[[]|e] w'].
Qed.

(** C1: a device of "auto" resolves to GPU index 0 when CUDA is detected and
    to "cpu" otherwise; and whatever device the routine resolves, the tool is
    called with mode "accurate" and augmentation when that device is not
    "cpu", and with mode "fast" and no augmentation when it is "cpu". *)
Theorem process_auto_device_and_mode inputNode ov os w :
  let tmp := temp_path (length (temp_dirs w)) in
  let calls device := tool_calls (io_log (process (Some inputNode) ov os device w).2) in
  calls (DevStr "auto") =
    (tool_calls (io_log w)
       ++ [mkRunArgs [tmp +:+ "/hdbet-input.nii.gz"] [tmp +:+ "/hdbet-output.nii.gz"]
             (if cuda w then "accurate" else "fast") (os_path_join HD_BET_path "config.py")
             (if cuda w then DevInt 0 else DevStr "cpu") true (cuda w)
             (bool_decide (os ≠ None)) true (bool_decide (ov ≠ None))])%list
  ∧ ∀ device, ∃ args,
      calls device = (tool_calls (io_log w) ++ [args])%list
      ∧ (run_device args ≠ DevStr "cpu" → mode args = "accurate" ∧ do_tta args = true)
      ∧ (run_device args = DevStr "cpu" → mode args = "fast" ∧ do_tta args = false).
Proof.
  intros tmp calls. subst calls. split.
  - rewrite process_tool_calls. by destruct (cuda w).
  - intros device. eexists. split; [apply process_tool_calls |].
    unfold tool_args, py_eq. cbn. case_bool_decide; cbn; split; intros; done.
Qed.

(** The sibling path: the widget hands [process] the integer 0 for the first
    GPU entry of the device list, and a positive index is passed on as it is. *)
Lemma process_gpu_index_nonzero inputNode ov os n w :
  n ≠ 0 →
  let tmp := temp_path (length (temp_dirs w)) in
  tool_calls (io_log (process (Some inputNode) ov os (DevInt n) w).2) =
    (tool_calls (io_log w)
       ++ [mkRunArgs [tmp +:+ "/hdbet-input.nii.gz"] [tmp +:+ "/hdbet-output.nii.gz"]
             "accurate" (os_path_join HD_BET_path "config.py") (DevInt n) true true
             (bool_decide (os ≠ None)) true (bool_decide (ov ≠ None))])%list.
Proof.
  intros Hn tmp. rewrite process_tool_calls. unfold device_used, tool_args. cbn.
  by destruct (Z.eqb_spec n 0).
Qed.

(** C2 (the code at GPU index 0 without CUDA): the index 0 is false as a
    Python truth value, so [process] takes it for a missing device, resolves
    it like "auto" and calls the tool on "cpu" with mode "fast" and without
    augmentation. *)
Theorem process_gpu_index_zero inputNode ov os w :
  let tmp := temp_path (length (temp_dirs w)) in
  tool_calls (io_log (process (Some inputNode) ov os (DevInt 0) (set_cuda false w)).2) =
    (tool_calls (io_log w)
       ++ [mkRunArgs [tmp +:+ "/hdbet-input.nii.gz"] [tmp +:+ "/hdbet-output.nii.gz"]
             "fast" (os_path_join HD_BET_path "config.py") (DevStr "cpu") true false
             (bool_decide (os ≠ None)) true (bool_decide (ov ≠ None))])%list.
Proof.
  intros tmp. by rewrite process_tool_calls.
Qed.

(** C3: with no input volume [process] raises the invalid-argument error
    and leaves the world as it was: no folder, no file, no read, no write. *)
Theorem process_null_input ov os device w :
  process None ov os device w = (Raised (ValueError "Input or output volume is invalid"), w).
Proof. reflexivity. Qed.

(** C10: a device of [None] (the default of the argument) makes [process]
    do what it does for "auto". *)
Theorem process_device_default iv ov os w :
  process iv ov os DevNone w = process iv ov os (DevStr "auto") w.
Proof. by destruct iv. Qed.

Lemma temp_file_ne (tmp a b : string) : a ≠ b → tmp +:+ a ≠ tmp +:+ b.
Proof. intros Hne Heq. by apply (inj (String.append tmp)) in Heq. Qed.

(** C4: when the tool raises, [process] ends there: the disk is the one the
    tool left behind, so the input file written for it is not removed by
    the routine (the log has its write and no removal), nothing is read
    back, and the output volume and the output segmentation are as before. *)
Theorem process_tool_failure iv ov os device w :
  (process iv ov os device w).1 = Raised ToolError →
  let w' := (process iv ov os device w).2 in
  let tmp := temp_path (length (temp_dirs w)) in
  let input_file := tmp +:+ "/hdbet-input.nii.gz" in
  let args := tool_args tmp ov os (device_used device (cuda w)) in
  ∃ inputNode,
    iv = Some inputNode
    ∧ hd_bet args (<[input_file := volume_of w inputNode]> (disk w)) = (disk w', false)
    ∧ io_log w' =
        (io_log w ++ [EvTempDirectory tmp; EvWriteData input_file inputNode; EvRunHdBet args])%list
    ∧ volumes w' = volumes w
    ∧ segmentations w' = segmentations w.
Proof.
  intros Hraised w' tmp input_file args. subst w'.
  destruct (process iv ov os device w) as [r w'] eqn:Hrun. cbn in Hraised. subst r. cbn.
  destruct iv as [inputNode|]; [| done]. exists inputNode. split; [done |].
  refine (wp_raised _ (fun _ _ => True)
    (fun e w' => e = ToolError →
       hd_bet args (<[input_file := volume_of w inputNode]> (disk w)) = (disk w', false)
       ∧ io_log w' =
           (io_log w ++ [EvTempDirectory tmp; EvWriteData input_file inputNode;
                         EvRunHdBet args])%list
       ∧ volumes w' = volumes w ∧ segmentations w' = segmentations w)
    w _ _ _ Hrun eq_refl).
  clear Hrun. subst args input_file tmp. unfold process, device_used, tool_args.
  repeat wp_step.
  all: try done.
  all: intros _; cbn in *; rewrite <- ?app_assoc; cbn.
  all: done.
Qed.

(** C5: when [process] returns, the input file and the file of every
    requested output have been removed, each output file after it was read:
    none of them is on the disk any more, and the disk is the one the tool
    left without them. *)
Theorem process_success_removes_temp_files iv ov os device w w' :
  process iv ov os device w = (Returned tt, w') →
  let tmp := temp_path (length (temp_dirs w)) in
  let input_file := tmp +:+ "/hdbet-input.nii.gz" in
  let output_file := tmp +:+ "/hdbet-output.nii.gz" in
  let output_segmentation_file := tmp +:+ "/hdbet-output_mask.nii.gz" in
  let args := tool_args tmp ov os (device_used device (cuda w)) in
  ∃ inputNode,
    iv = Some inputNode
    ∧ io_log w' =
        (io_log w
           ++ [EvTempDirectory tmp; EvWriteData input_file inputNode; EvRunHdBet args;
               EvRemove input_file]
           ++ match ov with
              | Some node => [EvReadVolume output_file node; EvRemove output_file]
              | None => []
              end
           ++ match os with
              | Some node => [EvReadSegmentation output_segmentation_file node;
                              EvRemove output_segmentation_file]
              | None => []
              end)%list
    ∧ disk w' =
        (match os with Some _ => delete output_segmentation_file | None => id end)
          ((match ov with Some _ => delete output_file | None => id end)
             (delete input_file
                (hd_bet args (<[input_file := volume_of w inputNode]> (disk w))).1))
    ∧ disk w' !! input_file = None
    ∧ (is_Some ov → disk w' !! output_file = None)
    ∧ (is_Some os → disk w' !! output_segmentation_file = None).
Proof.
  intros Hrun tmp input_file output_file output_segmentation_file args.
  destruct iv as [inputNode|]; [| done]. exists inputNode. split; [done |].
  assert (Hio : input_file ≠ output_file) by (by apply temp_file_ne).
  assert (Him : input_file ≠ output_segmentation_file) by (by apply temp_file_ne).
  assert (Hom : output_file ≠ output_segmentation_file) by (by apply temp_file_ne).
  refine (wp_returned _ (fun _ w' => _ ∧ _ ∧ _ ∧ _ ∧ _) (fun _ _ => True) w _ _ _ Hrun).
  clear Hrun. subst args. unfold process, device_used, tool_args.
  repeat wp_step.
  all: try done.
  all: unfold volume_of in *; cbn in *; rewrite <- ?app_assoc; cbn.
  all: repeat match goal with x := _ |- _ => subst x end.
  all: repeat match goal with H : hd_bet _ _ = _ |- _ => rewrite H; clear H end; cbn.
  all: split_and!; try done.
  all: try (intros [? ?]; discriminate).
  all: try intros _.
  all: repeat first
         [ rewrite lookup_delete_eq
         | rewrite lookup_delete_ne by (done || (apply not_eq_sym; done)) ].
  all: done.
Qed.

Lemma segmentation_of_set node s w :
  segmentation_of (set_segmentation node s w) node = s.
Proof. unfold segmentation_of. cbn. by rewrite lookup_insert_eq. Qed.

Lemma GetSegment_first sid g rest : GetSegment ((sid, g) :: rest) sid = Some g.
Proof. cbn. by rewrite String.eqb_refl. Qed.

Lemma modify_segment_first f sid g rest :
  modify_segment f sid ((sid, g) :: rest) = (sid, f g) :: rest.
Proof. cbn. by rewrite String.eqb_refl. Qed.

(** When [process] returns with a segmentation requested, the node holds
    what the storage node read from the mask file, with its first segment
    renamed, tagged and coloured, and its other segments as they were read. *)
Lemma process_segmentation_result iv ov node device w w' :
  process iv ov (Some node) device w = (Returned tt, w') →
  let tmp := temp_path (length (temp_dirs w)) in
  let input_file := tmp +:+ "/hdbet-input.nii.gz" in
  let output_segmentation_file := tmp +:+ "/hdbet-output_mask.nii.gz" in
  let args := tool_args tmp ov (Some node) (device_used device (cuda w)) in
  ∃ inputNode img sid g rest,
    iv = Some inputNode
    ∧ (hd_bet args (<[input_file := volume_of w inputNode]> (disk w))).1
        !! output_segmentation_file = Some img
    ∧ read_labelmap img (segmentation_of w node) = (sid, g) :: rest
    ∧ segmentation_of w' node =
        (sid, SetColor 0.9803921568627451 0.9803921568627451 0.8823529411764706
                (SetName "brain" (SetTag "TerminologyEntry" terminology g))) :: rest.
Proof.
  intros Hrun tmp input_file output_segmentation_file args.
  destruct iv as [inputNode|]; [| done]. exists inputNode.
  refine (wp_returned _ (fun _ w' => ∃ img sid g rest, _ ∧ _ ∧ _ ∧ _) (fun _ _ => True)
            w _ _ _ Hrun).
  clear Hrun. subst args. unfold process, device_used, tool_args.
  repeat wp_step.
  all: try done.
  all: unfold volume_of, segmentation_of in *; cbn in *.
  all: repeat match goal with x := _ |- _ => subst x end.
  all: rewrite ?lookup_insert_eq in *; cbn in *.
  all: repeat match goal with
         | H : hd_bet _ _ = _ |- _ => rewrite H; clear H
         | H : delete _ _ !! _ = Some _ |- _ =>
             rewrite lookup_delete_ne in H by (by apply temp_file_ne)
         end; cbn.
  all: repeat match goal with
         | H : delete _ _ !! _ = None |- _ =>
             rewrite lookup_delete_ne in H by (by apply temp_file_ne)
         end.
  all: try congruence.
  all: match goal with
       | |- context [modify_segment _ _ (read_labelmap ?img ?s)] =>
           exists img; destruct (read_labelmap img s) as [|[sid' g] rest] eqn:Hread
       end; cbn in *; try discriminate.
  all: rewrite ?String.eqb_refl in *; cbn in *; simplify_eq.
  all: repeat (rewrite String.eqb_refl; cbn).
  all: by eexists _, _, _.
Qed.

(** C7: when [process] returns with a segmentation requested, the node holds
    the segments that the storage node read from the mask file, at least
    one: the first is named "brain", with the terminology entry of SCT
    12738006 (Brain) and the fixed colour; the others are as they were
    read.  The segmentation has exactly one segment only when the mask file
    gave exactly one. *)
Theorem process_names_first_segment iv ov node device w w' :
  process iv ov (Some node) device w = (Returned tt, w') →
  let tmp := temp_path (length (temp_dirs w)) in
  let input_file := tmp +:+ "/hdbet-input.nii.gz" in
  let output_segmentation_file := tmp +:+ "/hdbet-output_mask.nii.gz" in
  let args := tool_args tmp ov (Some node) (device_used device (cuda w)) in
  ∃ inputNode img sid g rest brain,
    iv = Some inputNode
    ∧ (hd_bet args (<[input_file := volume_of w inputNode]> (disk w))).1
        !! output_segmentation_file = Some img
    ∧ read_labelmap img (segmentation_of w node) = (sid, g) :: rest
    ∧ segmentation_of w' node = (sid, brain) :: rest
    ∧ seg_name brain = "brain"
    ∧ seg_tags brain !! "TerminologyEntry" =
        Some ("Segmentation category and type - 3D Slicer General Anatomy list"
              +:+ "~SCT^123037004^Anatomical Structure~SCT^12738006^Brain~^^"
              +:+ "~Anatomic codes - DICOM master list~^^~^^")
    ∧ seg_color brain = (0.9803921568627451, 0.9803921568627451, 0.8823529411764706)%Q
    ∧ (length (segmentation_of w' node) = 1%nat ↔
       length (read_labelmap img (segmentation_of w node)) = 1%nat).
Proof.
  intros Hrun tmp input_file output_segmentation_file args.
  destruct (process_segmentation_result _ _ _ _ _ _ Hrun)
    as (inputNode & img & sid & g & rest & -> & Hmask & Hread & Hseg).
  eexists inputNode, img, sid, g, rest, _.
  split_and!; [done | exact Hmask | exact Hread | exact Hseg | done | | done |].
  - cbn. by rewrite lookup_insert_eq.
  - by rewrite Hseg, Hread.
Qed.

End LogicFacts.

(** ** Default parameters *)

(** C6: [setDefaultParameters] sets "Device" to "auto" when the parameter is
    unset (reads as the empty string) and touches nothing else; it leaves a
    node with a non-empty "Device" as it is; so applying it twice is the
    same as applying it once. *)
Theorem setDefaultParameters_device (pn : ParameterNode) :
  (GetParameter pn "Device" = "" ->
     setDefaultParameters pn = SetParameter "Device" "auto" pn
     /\ GetParameter (setDefaultParameters pn) "Device" = "auto"
     /\ references (setDefaultParameters pn) = references pn
     /\ forall k, k ≠ "Device" ->
          GetParameter (setDefaultParameters pn) k = GetParameter pn k)
  /\ (GetParameter pn "Device" ≠ "" -> setDefaultParameters pn = pn)
  /\ setDefaultParameters (setDefaultParameters pn) = setDefaultParameters pn.
Proof.
  assert (Hset : GetParameter (SetParameter "Device" "auto" pn) "Device" = "auto").
  { unfold GetParameter, SetParameter. cbn. by rewrite lookup_insert_eq. }
  unfold setDefaultParameters, truthy_str.
  destruct (String.eqb_spec (GetParameter pn "Device") "") as [Hempty|Hset'];
    cbn; split_and!; try done.
  - intros _. split_and!; try done.
    intros k Hk. unfold GetParameter, SetParameter. cbn. by rewrite lookup_insert_ne.
  - by rewrite Hset.
  - destruct (String.eqb_spec (GetParameter pn "Device") ""); done.
Qed.

(** ** The binding of GUI and parameter node *)

Lemma writes_app t1 t2 : writes (t1 ++ t2) = (writes t1 ++ writes t2)%list.
Proof. apply List.filter_app. Qed.

Lemma writes_blocked_calls k : writes (replicate k (CallUpdateParameterNodeFromGUI true)) = [].
Proof. induction k; [done | by cbn]. Qed.

Section WidgetFacts.

Context (deviceItems : list string).

Local Abbreviation updateGUIFromParameterNode := (updateGUIFromParameterNode deviceItems).
Local Abbreviation updateParameterNodeFromGUI := (updateParameterNodeFromGUI deviceItems).

Lemma updateParameterNodeFromGUI_blocked observer :
  blocked (updateParameterNodeFromGUI_body deviceItems observer).
Proof.
  intros v Hv. unfold updateParameterNodeFromGUI_body. cbn. rewrite Hv.
  by destruct (_parameterNode v).
Qed.

Lemma updateGUIFromParameterNode_blocked slot v :
  _updatingGUIFromParameterNode v = true ->
  updateGUIFromParameterNode_body deviceItems slot v =
  Some (record [CallUpdateGUIFromParameterNode true] v).
Proof.
  intros Hv. unfold updateGUIFromParameterNode_body. cbn. rewrite Hv.
  by destruct (_parameterNode v).
Qed.

Lemma refreshing_refl w : _updatingGUIFromParameterNode w = true -> refreshing w w.
Proof.
  intros Hw. unfold refreshing. split_and!; try done. exists 0%nat. cbn. by rewrite app_nil_r.
Qed.

Lemma refreshing_trans w w1 w2 : refreshing w w1 -> refreshing w1 w2 -> refreshing w w2.
Proof.
  intros (Hs & Hp & Ho & Hn & Hf & k & Ht) (Hs' & Hp' & Ho' & Hn' & Hf' & k' & Ht').
  unfold refreshing. split_and!; try congruence.
  exists (k + k')%nat. rewrite Ht', Ht, <- app_assoc. by rewrite replicate_add.
Qed.

(** A widget change under the flag: the slot it runs is blocked. *)
Lemma refreshing_signal slot u w :
  blocked slot -> _updatingGUIFromParameterNode w = true ->
  exists w1, slot (set_ui u w) = Some w1 /\ refreshing w w1.
Proof.
  intros Hslot Hw. eexists. split; [by apply Hslot |].
  unfold refreshing. cbn. split_and!; try done. by exists 1%nat.
Qed.

Lemma refreshing_inputVolumeSelector slot node w :
  blocked slot -> _updatingGUIFromParameterNode w = true ->
  exists w1, inputVolumeSelector_setCurrentNode slot node w = Some w1 /\ refreshing w w1.
Proof.
  intros Hslot Hw. unfold inputVolumeSelector_setCurrentNode. case_bool_decide.
  - exists w. split; [done | by apply refreshing_refl].
  - by apply refreshing_signal.
Qed.

Lemma refreshing_outputVolumeSelector slot node w :
  blocked slot -> _updatingGUIFromParameterNode w = true ->
  exists w1, outputVolumeSelector_setCurrentNode slot node w = Some w1 /\ refreshing w w1.
Proof.
  intros Hslot Hw. unfold outputVolumeSelector_setCurrentNode. case_bool_decide.
  - exists w. split; [done | by apply refreshing_refl].
  - by apply refreshing_signal.
Qed.

Lemma refreshing_outputSegmentationSelector slot node w :
  blocked slot -> _updatingGUIFromParameterNode w = true ->
  exists w1, outputSegmentationSelector_setCurrentNode slot node w = Some w1 /\ refreshing w w1.
Proof.
  intros Hslot Hw. unfold outputSegmentationSelector_setCurrentNode. case_bool_decide.
  - exists w. split; [done | by apply refreshing_refl].
  - by apply refreshing_signal.
Qed.

Lemma refreshing_deviceComboBox slot text w :
  blocked slot -> _updatingGUIFromParameterNode w = true ->
  exists w1, deviceComboBox_setCurrentText deviceItems slot text w = Some w1 /\ refreshing w w1.
Proof.
  intros Hslot Hw. unfold deviceComboBox_setCurrentText.
  destruct (_ || _).
  - exists w. split; [done | by apply refreshing_refl].
  - by apply refreshing_signal.
Qed.

(** A refresh of the GUI from an idle widget with a parameter node: it
    returns, leaves the scene and the parameter nodes alone, runs its slots
    only under the flag, and sets the Apply button from the references. *)
Lemma updateGUIFromParameterNode_refresh slot w p :
  blocked slot ->
  _parameterNode w = Some p -> _updatingGUIFromParameterNode w = false ->
  exists w' k,
    updateGUIFromParameterNode_body deviceItems slot w = Some w'
    /\ scene_nodes w' = scene_nodes w
    /\ parameter_nodes w' = parameter_nodes w
    /\ observed w' = observed w
    /\ _parameterNode w' = Some p
    /\ _updatingGUIFromParameterNode w' = false
    /\ trace w' =
         (trace w ++ CallUpdateGUIFromParameterNode false
                      :: replicate k (CallUpdateParameterNodeFromGUI true))%list
    /\ applyButton_enabled (ui w') =
         bool_decide (is_Some (GetNodeReference (scene_nodes w) (parameter_node_of w p)
                                 "InputVolume"))
         && (bool_decide (is_Some (GetNodeReference (scene_nodes w) (parameter_node_of w p)
                                     "OutputVolume"))
             || bool_decide (is_Some (GetNodeReference (scene_nodes w) (parameter_node_of w p)
                                        "OutputSegmentation"))).
Proof.
  intros Hslot Hp Hw. unfold updateGUIFromParameterNode_body. cbn. rewrite Hp, Hw.
  match goal with
  | |- context [inputVolumeSelector_setCurrentNode slot ?n ?w0] =>
      destruct (refreshing_inputVolumeSelector slot n w0 Hslot eq_refl) as (w1 & -> & R1)
  end.
  cbn. pose proof R1 as (_ & _ & _ & _ & H1 & _).
  match goal with
  | |- context [outputVolumeSelector_setCurrentNode slot ?n ?w0] =>
      destruct (refreshing_outputVolumeSelector slot n w0 Hslot H1) as (w2 & -> & R2)
  end.
  cbn. pose proof R2 as (_ & _ & _ & _ & H2 & _).
  match goal with
  | |- context [outputSegmentationSelector_setCurrentNode slot ?n ?w0] =>
      destruct (refreshing_outputSegmentationSelector slot n w0 Hslot H2) as (w3 & -> & R3)
  end.
  cbn. pose proof R3 as (_ & _ & _ & _ & H3 & _).
  match goal with
  | |- context [deviceComboBox_setCurrentText deviceItems slot ?n ?w0] =>
      destruct (refreshing_deviceComboBox slot n w0 Hslot H3) as (w4 & -> & R4)
  end.
  cbn.
  pose proof (refreshing_trans _ _ _ (refreshing_trans _ _ _ (refreshing_trans _ _ _ R1 R2) R3) R4)
    as (Hs & Hpn & Ho & Hn & Hf & k & Ht).
  cbn in Hs, Hpn, Ho, Hn, Ht.
  assert (Hpn4 : parameter_node_of w4 p = parameter_node_of w p).
  { unfold parameter_node_of. by rewrite Hpn. }
  rewrite Hpn4, Hs.
  eexists _, k. split; [reflexivity |].
  destruct (GetNodeReference (scene_nodes w) (parameter_node_of w p) "InputVolume") as [v|];
    destruct (bool_decide _ && _); cbn; rewrite ?Hs, ?Hpn, ?Ho, ?Hn, ?Ht; cbn;
    rewrite <- ?app_assoc; done.
Qed.

Lemma updateGUIFromParameterNode_S depth :
  updateGUIFromParameterNode (S (S depth)) =
  updateGUIFromParameterNode_body deviceItems
    (updateParameterNodeFromGUI_body deviceItems (updateGUIFromParameterNode depth)).
Proof. reflexivity. Qed.

Lemma updateParameterNodeFromGUI_S depth :
  updateParameterNodeFromGUI (S depth) =
  updateParameterNodeFromGUI_body deviceItems (updateGUIFromParameterNode depth).
Proof. reflexivity. Qed.

(** C8: after [updateGUIFromParameterNode] has refreshed the GUI (the widget
    has a parameter node and is not already refreshing), the Apply button is
    enabled exactly when the parameter node references an input volume and
    an output volume or an output segmentation. *)
Theorem updateGUIFromParameterNode_apply_button depth w p :
  _parameterNode w = Some p -> _updatingGUIFromParameterNode w = false ->
  exists w',
    updateGUIFromParameterNode (S (S depth)) w = Some w'
    /\ scene_nodes w' = scene_nodes w
    /\ parameter_nodes w' = parameter_nodes w
    /\ (applyButton_enabled (ui w') = true <->
          is_Some (GetNodeReference (scene_nodes w') (parameter_node_of w' p) "InputVolume")
          /\ (is_Some (GetNodeReference (scene_nodes w') (parameter_node_of w' p) "OutputVolume")
               \/ is_Some (GetNodeReference (scene_nodes w') (parameter_node_of w' p)
                             "OutputSegmentation"))).
Proof.
  intros Hp Hw. rewrite updateGUIFromParameterNode_S.
  destruct (updateGUIFromParameterNode_refresh _ w p
              (updateParameterNodeFromGUI_blocked (updateGUIFromParameterNode depth)) Hp Hw)
    as (w' & k & -> & Hs & Hpn & _ & _ & _ & _ & Hbtn).
  exists w'. split_and!; try done.
  assert (Hpn' : parameter_node_of w' p = parameter_node_of w p).
  { unfold parameter_node_of. by rewrite Hpn. }
  rewrite Hbtn, Hs, Hpn', andb_true_iff, orb_true_iff, !bool_decide_eq_true. done.
Qed.

(** C9: while the GUI is being refreshed the re-entrancy flag is set, and a
    call of [updateParameterNodeFromGUI] or of [updateGUIFromParameterNode]
    under the flag returns at once; a refresh therefore runs its slots
    blocked and writes nothing to the parameter node; and a change made in
    the GUI writes its one batch to the parameter node, the refresh that the
    node's ModifiedEvent starts adding no further write. *)
Theorem no_update_cycle :
  (forall depth w, _updatingGUIFromParameterNode w = true ->
     updateParameterNodeFromGUI (S depth) w =
       Some (record [CallUpdateParameterNodeFromGUI true] w)
     /\ updateGUIFromParameterNode (S depth) w =
          Some (record [CallUpdateGUIFromParameterNode true] w))
  /\ (forall depth w, exists w' k,
        updateGUIFromParameterNode (S (S depth)) w = Some w'
        /\ parameter_nodes w' = parameter_nodes w
        /\ _updatingGUIFromParameterNode w' = _updatingGUIFromParameterNode w
        /\ trace w' =
             (trace w ++ CallUpdateGUIFromParameterNode (_updatingGUIFromParameterNode w)
                          :: replicate k (CallUpdateParameterNodeFromGUI true))%list)
  /\ (forall depth w p,
        _parameterNode w = Some p -> _updatingGUIFromParameterNode w = false ->
        exists w',
          updateParameterNodeFromGUI (S (S (S depth))) w = Some w'
          /\ parameter_nodes w' =
               <[p := parameter_node_from_GUI deviceItems (ui w) (parameter_node_of w p)]>
                 (parameter_nodes w)
          /\ writes (trace w') = (writes (trace w) ++ writes_from_GUI deviceItems (ui w))%list).
Proof.
  split_and!.
  - intros depth w Hw. split.
    + rewrite updateParameterNodeFromGUI_S. by apply updateParameterNodeFromGUI_blocked.
    + destruct depth; by apply updateGUIFromParameterNode_blocked.
  - intros depth w. rewrite updateGUIFromParameterNode_S.
    destruct (_parameterNode w) as [p|] eqn:Hp;
      [destruct (_updatingGUIFromParameterNode w) eqn:Hw |].
    + rewrite updateGUIFromParameterNode_blocked by done.
      eexists _, 0%nat. split; [reflexivity |]. done.
    + destruct (updateGUIFromParameterNode_refresh _ w p
                  (updateParameterNodeFromGUI_blocked (updateGUIFromParameterNode depth)) Hp Hw)
        as (w' & k & -> & _ & Hpn & _ & _ & Hf & Ht & _).
      by exists w', k.
    + unfold updateGUIFromParameterNode_body. cbn. rewrite Hp.
      eexists _, 0%nat. split; [reflexivity |]. done.
  - intros depth w p Hp Hw. rewrite updateParameterNodeFromGUI_S.
    pose proof (fun v => updateGUIFromParameterNode_refresh _ v p
                  (updateParameterNodeFromGUI_blocked (updateGUIFromParameterNode depth)))
      as Hobs.
    rewrite <- updateGUIFromParameterNode_S in Hobs.
    generalize dependent (updateGUIFromParameterNode (S (S depth))). intros observer Hobs.
    unfold updateParameterNodeFromGUI_body. cbn. rewrite Hp, Hw.
    unfold EndModify. cbn. case_bool_decide as Hsame.
    { eexists. split; [reflexivity |]. cbn. split; [done |].
      by rewrite !writes_app, app_nil_r. }
    match goal with
    | |- context [record [ModifiedEvent p] ?v] => set (w2 := record [ModifiedEvent p] v)
    end.
    assert (Hw2 : writes (trace w2) = (writes (trace w) ++ writes_from_GUI deviceItems (ui w))%list).
    { subst w2. cbn. by rewrite !writes_app, !app_nil_r. }
    case_bool_decide.
    + destruct (Hobs w2 Hp Hw) as (w' & k & -> & _ & Hpn & _ & _ & _ & Ht & _).
      exists w'. split; [done |]. split; [by rewrite Hpn |].
      rewrite Ht, writes_app. cbn. rewrite writes_blocked_calls, app_nil_r. done.
    + eexists. split; [reflexivity |]. done.
Qed.

End WidgetFacts.

(** * The properties on the concrete environment *)

Example demo_run_succeeds :
  (Demo.run (Some Demo.input_node) (Some "out") (Some "seg") DevNone Demo.world).1
  = Returned tt.
Proof. vm_compute. reflexivity. Qed.

Example demo_run_output_volume :
  volume_of (Demo.run (Some Demo.input_node) (Some "out") None (DevStr "cpu") Demo.world).2 "out"
  = [0; 3; 5; 0].
Proof. vm_compute. reflexivity. Qed.

Example demo_onApplyButton_first_gpu :
  onApplyButton_device (mkUI None None None 2 "" false "" "") = DevInt 0.
Proof. reflexivity. Qed.

Example demo_refresh :
  ui <$> updateGUIFromParameterNode Demo.deviceItems 2 Demo.widget
  = Some (mkUI (Some "vtkMRMLScalarVolumeNode1") None (Some "vtkMRMLSegmentationNode1") 1
            "Extract brain" true "MRBrainTumor1 stripped" "MRBrainTumor1 mask").
Proof. vm_compute. reflexivity. Qed.

Example demo_refresh_trace :
  trace <$> updateGUIFromParameterNode Demo.deviceItems 2 Demo.widget
  = Some [CallUpdateGUIFromParameterNode false;
          CallUpdateParameterNodeFromGUI true;
          CallUpdateParameterNodeFromGUI true;
          CallUpdateParameterNodeFromGUI true].
Proof. vm_compute. reflexivity. Qed.

Example demo_gui_change :
  trace <$> updateParameterNodeFromGUI Demo.deviceItems 3 Demo.widget
  = Some [CallUpdateParameterNodeFromGUI false;
          WriteNodeReferenceID "InputVolume" "";
          WriteNodeReferenceID "OutputVolume" "";
          WriteNodeReferenceID "OutputSegmentation" "";
          WriteParameter "Device" "auto";
          ModifiedEvent "vtkMRMLScriptedModuleNode1";
          CallUpdateGUIFromParameterNode false].
Proof. vm_compute. reflexivity. Qed.

Lemma process_tool_failure_witness :
  let r := Demo.run_failing (Some Demo.input_node) (Some "out") (Some "seg") DevNone Demo.world in
  r.1 = Raised ToolError
  /\ io_log r.2 =
       [EvTempDirectory "/tmp/Slicer/__SlicerTemp__";
        EvWriteData Demo.input_file Demo.input_node;
        EvRunHdBet (tool_args Demo.HD_BET_path "/tmp/Slicer/__SlicerTemp__"
                      (Some "out") (Some "seg") (DevStr "cpu"))]
  /\ disk r.2 !! Demo.input_file = Some [0; 3; 5; 0]
  /\ volumes r.2 = volumes Demo.world
  /\ segmentations r.2 = segmentations Demo.world.
Proof.
  intros r.
  assert (Hfail : r.1 = Raised ToolError) by (vm_compute; reflexivity).
  destruct (process_tool_failure Demo.temp_path Demo.HD_BET_path Demo.failing_tool
              Demo.read_binary_labelmap _ _ _ _ _ Hfail)
    as (inputNode & Hin & Htool & Hlog & Hvol & Hseg).
  injection Hin as <-. split_and!; done.
Defined.

Lemma process_success_removes_temp_files_witness :
  let r := Demo.run (Some Demo.input_node) (Some "out") (Some "seg") DevNone Demo.world in
  r = (Returned tt, r.2)
  /\ disk r.2 !! Demo.input_file = None
  /\ disk r.2 !! Demo.output_file = None
  /\ disk r.2 !! Demo.output_segmentation_file = None.
Proof.
  intros r.
  assert (Hrun : r = (Returned tt, r.2)) by (vm_compute; reflexivity).
  destruct (process_success_removes_temp_files Demo.temp_path Demo.HD_BET_path
              Demo.threshold_tool Demo.read_binary_labelmap _ _ _ _ _ _ Hrun)
    as (inputNode & Hin & Hlog & Hdisk & Hi & Ho & Hm).
  split_and!; [done | exact Hi | by apply Ho | by apply Hm].
Defined.

Lemma process_names_first_segment_witness :
  let r := Demo.run (Some Demo.input_node) (Some "out") (Some "seg") DevNone Demo.world in
  r = (Returned tt, r.2)
  /\ exists sid brain,
       segmentation_of r.2 "seg" = [(sid, brain)]
       /\ seg_name brain = "brain"
       /\ seg_color brain = (0.9803921568627451, 0.9803921568627451, 0.8823529411764706)%Q.
Proof.
  intros r.
  assert (Hrun : r = (Returned tt, r.2)) by (vm_compute; reflexivity).
  split; [exact Hrun |].
  destruct (process_names_first_segment Demo.temp_path Demo.HD_BET_path
              Demo.threshold_tool Demo.read_binary_labelmap _ _ _ _ _ _ Hrun)
    as (inputNode & img & sid & g & rest & brain & Hin & Himg & Hread & Hseg & Hname
        & _ & Hcolor & _).
  injection Hin as <-. vm_compute in Himg. injection Himg as <-.
  vm_compute in Hread. injection Hread as <- <- <-.
  exists "Segment_1", brain. exact (conj Hseg (conj Hname Hcolor)).
Defined.

(** A run whose mask file has two labels: it returns, and the output
    segmentation has two segments, the first named "brain" and the second
    as it was read. *)
Example process_two_segments :
  let r := Cases.run_labels (Some Demo.input_node) None (Some "seg") DevNone Demo.world in
  r.1 = Returned tt
  /\ length (segmentation_of r.2 "seg") = 2%nat
  /\ (seg_name <$> (snd <$> segmentation_of r.2 "seg")) = ["brain"; "Segment_5"].
Proof. vm_compute. done. Qed.

Lemma updateGUIFromParameterNode_apply_button_witness :
  exists w',
    updateGUIFromParameterNode Demo.deviceItems 2 Demo.widget = Some w'
    /\ applyButton_enabled (ui w') = true.
Proof.
  destruct (updateGUIFromParameterNode_apply_button Demo.deviceItems 0 Demo.widget
              "vtkMRMLScriptedModuleNode1" eq_refl eq_refl)
    as (w' & Hrun & Hs & Hpn & Hbtn).
  exists w'. split; [exact Hrun |]. apply Hbtn.
  unfold parameter_node_of. rewrite Hs, Hpn. vm_compute. split; [| right]; by eexists.
Defined.

Lemma setDefaultParameters_device_witness :
  GetParameter (setDefaultParameters (mkParameterNode ∅ ∅)) "Device" = "auto"
  /\ setDefaultParameters Demo.parameter_node = Demo.parameter_node.
Proof.
  destruct (setDefaultParameters_device (mkParameterNode ∅ ∅)) as (Hunset & _ & _).
  destruct (setDefaultParameters_device Demo.parameter_node) as (_ & Hset & _).
  split.
  - by apply Hunset.
  - apply Hset. vm_compute. discriminate.
Defined.

Lemma no_update_cycle_witness :
  exists w',
    updateParameterNodeFromGUI Demo.deviceItems 3 Demo.widget = Some w'
    /\ writes (trace w') = writes_from_GUI Demo.deviceItems (ui Demo.widget).
Proof.
  destruct (no_update_cycle Demo.deviceItems) as (_ & _ & Hchange).
  destruct (Hchange 0%nat Demo.widget "vtkMRMLScriptedModuleNode1" eq_refl eq_refl)
    as (w' & Hrun & _ & Hwrites).
  exists w'. split; [exact Hrun | exact Hwrites].
Defined.

(** * Further properties *)

(** ** The processing routine: what it touches and how it fails *)

Section ProcessFacts.

Context (temp_path : nat -> string) (HD_BET_path : string)
  (hd_bet : RunArgs -> gmap string ImageData -> gmap string ImageData * bool)
  (read_labelmap : ImageData -> Segmentation -> Segmentation).

Local Abbreviation read_results := (read_results read_labelmap).
Local Abbreviation input_written := (input_written temp_path).
Local Abbreviation tool_run := (tool_run temp_path HD_BET_path hd_bet).

(** [process] with an input volume is the call of the tool and the reading
    of the results, from the world with the input file written. *)
Lemma process_unfold inputNode ov os device w :
  process temp_path HD_BET_path hd_bet read_labelmap (Some inputNode) ov os device w =
  (run_hd_bet hd_bet
     (tool_args HD_BET_path (temp_path (length (temp_dirs w))) ov os
        (device_used device (cuda w)));;
   read_results (temp_path (length (temp_dirs w))) ov os) (input_written inputNode w).
Proof.
  unfold process, device_used, tool_args, read_results, input_written, py_eq.
  destruct w as [d t v sg c l].
  destruct c, (truthy device); cbn [negb].
  all: case_bool_decide; simplify_eq.
  all: unfold mbind, mret, Py_bind, Py_ret, gets, tempDirectory, WriteData; cbn.
  all: repeat case_bool_decide; simplify_eq; try reflexivity.
Qed.

Local Abbreviation process := (process temp_path HD_BET_path hd_bet read_labelmap).
Local Abbreviation tool_args := (tool_args HD_BET_path).

Lemma wp_process inputNode ov os device Q E w :
  wp (run_hd_bet hd_bet
        (tool_args (temp_path (length (temp_dirs w))) ov os (device_used device (cuda w)));;
      read_results (temp_path (length (temp_dirs w))) ov os) Q E (input_written inputNode w) ->
  wp (process (Some inputNode) ov os device) Q E w.
Proof. unfold wp at 2. by rewrite process_unfold. Qed.

Lemma wp_outcome {A} (m : Py A) (P : World -> Prop) w :
  wp m (fun _ => P) (fun _ => P) w -> P (m w).2.
Proof. unfold wp. by destruct (m w) as [[a|e] w']. Qed.

(** X1: whatever its outcome, [process] changes no volume node other than
    the output volume and no segmentation node other than the output
    segmentation, and it leaves the CUDA state alone. *)
Theorem process_frame iv ov os device w :
  let w' := (process iv ov os device w).2 in
  cuda w' = cuda w
  /\ (forall n, ov ≠ Some n -> volumes w' !! n = volumes w !! n)
  /\ (forall n, os ≠ Some n -> segmentations w' !! n = segmentations w !! n).
Proof.
  intros w'. subst w'. destruct iv as [inputNode|]; [| done].
  apply (wp_outcome _ (fun w' =>
    cuda w' = cuda w
    /\ (forall n, ov ≠ Some n -> volumes w' !! n = volumes w !! n)
    /\ (forall n, os ≠ Some n -> segmentations w' !! n = segmentations w !! n))).
  apply wp_process. unfold read_results.
  repeat wp_step.
  all: cbn; split_and!; try done.
  all: intros n Hn; rewrite ?lookup_insert_ne by congruence; done.
Qed.

(** X2: a run of [process] that has called the tool leaves the temp folder
    it created, whether it returns or raises after the call: the folder is
    the only one the run created, and it is not removed. *)
Theorem process_keeps_temp_folder iv ov os device w :
  let w' := (process iv ov os device w).2 in
  tool_calls (io_log w') ≠ tool_calls (io_log w) ->
  temp_dirs w' = (temp_dirs w ++ [temp_path (length (temp_dirs w))])%list.
Proof.
  intros w' Hcalled. subst w'. destruct iv as [inputNode|]; [| done].
  clear Hcalled.
  apply (wp_outcome _ (fun w' =>
    temp_dirs w' = (temp_dirs w ++ [temp_path (length (temp_dirs w))])%list)).
  apply wp_process. unfold read_results.
  repeat wp_step.
  all: done.
Qed.

(** X3: the calls of the tool that a run of [process] makes: at most one,
    and none without an input volume; a call is on the input file and for
    the output file of the run's new temp folder, with config.py of the
    HD_BET package, with postprocessing and overwriting on, keeping the mask
    exactly when an output segmentation is requested and producing the
    masked volume exactly when an output volume is requested. *)
Theorem process_tool_flags iv ov os device w :
  let tmp := temp_path (length (temp_dirs w)) in
  exists calls,
    tool_calls (io_log (process iv ov os device w).2) = (tool_calls (io_log w) ++ calls)%list
    /\ (length calls <= 1)%nat
    /\ (iv = None -> calls = [])
    /\ forall args, args ∈ calls ->
         mri_fnames args = [tmp +:+ "/hdbet-input.nii.gz"]
         /\ output_fnames args = [tmp +:+ "/hdbet-output.nii.gz"]
         /\ config_file args = HD_BET_path +:+ "/config.py"
         /\ postprocess args = true
         /\ overwrite args = true
         /\ (keep_mask args = true <-> is_Some os)
         /\ (bet args = true <-> is_Some ov).
Proof.
  intros tmp. destruct iv as [inputNode|].
  - eexists [_]. split; [apply process_tool_calls |].
    split; [cbn; lia |]. split; [done |].
    intros args ->%list_elem_of_singleton. cbn. split_and!; try done.
    + rewrite bool_decide_eq_true. apply not_eq_None_Some.
    + rewrite bool_decide_eq_true. apply not_eq_None_Some.
  - exists []. cbn. rewrite app_nil_r. split_and!; try done; [lia |].
    intros args Hin. by apply elem_of_nil in Hin.
Qed.

(** X4: a device that is true as a Python value and is not "auto" reaches
    the tool as it is, whatever the CUDA state: in mode "fast" without
    augmentation when it is "cpu", in mode "accurate" with augmentation
    otherwise. *)
Theorem process_explicit_device inputNode ov os device w :
  truthy device = true -> device ≠ DevStr "auto" ->
  exists args,
    tool_calls (io_log (process (Some inputNode) ov os device w).2) =
      (tool_calls (io_log w) ++ [args])%list
    /\ run_device args = device
    /\ mode args = (if bool_decide (device = DevStr "cpu") then "fast" else "accurate")
    /\ do_tta args = negb (bool_decide (device = DevStr "cpu")).
Proof.
  intros Htrue Hauto. eexists. split; [apply process_tool_calls |].
  unfold device_used, py_eq. rewrite Htrue. cbn.
  rewrite (bool_decide_eq_false_2 _ Hauto). cbn. unfold py_eq.
  by case_bool_decide.
Qed.

(** X5: a device that is false as a Python value ([None], the empty string,
    the integer 0) is taken for "auto". *)
Theorem process_falsy_device iv ov os device w :
  truthy device = false ->
  process iv ov os device w = process iv ov os (DevStr "auto") w.
Proof.
  intros Hfalse. destruct iv; [| done]. unfold process. by rewrite Hfalse.
Qed.

(** X6: when [process] returns with an output volume requested, the volume
    node holds the image that the tool left in the output file. *)
Theorem process_output_volume_read iv node os device w w' :
  process iv (Some node) os device w = (Returned tt, w') ->
  let tmp := temp_path (length (temp_dirs w)) in
  let input_file := tmp +:+ "/hdbet-input.nii.gz" in
  let output_file := tmp +:+ "/hdbet-output.nii.gz" in
  let args := tool_args tmp (Some node) os (device_used device (cuda w)) in
  exists inputNode img,
    iv = Some inputNode
    /\ (hd_bet args (<[input_file := volume_of w inputNode]> (disk w))).1 !! output_file
         = Some img
    /\ volume_of w' node = img.
Proof.
  intros Hrun tmp input_file output_file args.
  destruct iv as [inputNode|]; [| done]. exists inputNode.
  refine (wp_returned _ (fun _ w' => exists img, _ /\ _ /\ _) (fun _ _ => True) w _ _ _ Hrun).
  clear Hrun. subst args. apply wp_process. unfold read_results, input_written.
  repeat wp_step.
  all: try done.
  all: unfold volume_of in *; cbn in *.
  all: repeat match goal with x := _ |- _ => subst x end.
  all: repeat match goal with
         | H : hd_bet _ _ = _ |- _ => rewrite H; clear H
         | H : delete _ _ !! _ = _ |- _ =>
             rewrite lookup_delete_ne in H by (by apply temp_file_ne)
         end; cbn.
  all: try congruence.
  all: rewrite ?lookup_insert_eq; cbn.
  all: by eauto.
Qed.

(** X7: when the tool has returned and [process] then raises
    FileNotFoundError, the error is of one of its own calls of os.remove,
    for a temp file that is missing when the routine comes to remove it,
    and the node the file was meant for is left as it was: for the input
    file nothing was read back; for the output file the volumes and
    segmentations are unchanged and the input file is already removed; for
    the mask file the segmentations are unchanged and the input file is
    already removed. *)
Theorem process_missing_file inputNode ov os device w f w' :
  (tool_run inputNode ov os device w).2 = true ->
  process (Some inputNode) ov os device w = (Raised (FileNotFoundError f), w') ->
  let tmp := temp_path (length (temp_dirs w)) in
  (f = tmp +:+ "/hdbet-input.nii.gz"
   /\ volumes w' = volumes w /\ segmentations w' = segmentations w)
  \/ (f = tmp +:+ "/hdbet-output.nii.gz" /\ is_Some ov
      /\ volumes w' = volumes w /\ segmentations w' = segmentations w
      /\ disk w' !! (tmp +:+ "/hdbet-input.nii.gz") = None)
  \/ (f = tmp +:+ "/hdbet-output_mask.nii.gz" /\ is_Some os
      /\ segmentations w' = segmentations w
      /\ disk w' !! (tmp +:+ "/hdbet-input.nii.gz") = None).
Proof.
  intros _ Hrun tmp.
  refine (wp_raised _ (fun _ _ => True)
    (fun e w' => forall f, e = FileNotFoundError f -> _ \/ _ \/ _) w _ _ _ Hrun f eq_refl).
  clear Hrun. apply wp_process. unfold read_results, input_written.
  repeat wp_step.
  all: try done.
  all: intros f' [= <-]; cbn in *.
  all: repeat match goal with x := _ |- _ => subst x end.
  all: repeat match goal with
         | H : delete _ _ !! _ = _ |- _ =>
             rewrite lookup_delete_ne in H by (by apply temp_file_ne)
         end.
  all: try congruence.
  all: try (left; split_and!; done).
  all: try (right; left; split_and!; try done;
            first [ by eexists | by rewrite lookup_delete_eq ]).
  all: try (right; right; split_and!; try done;
            first [ by eexists
                  | by rewrite ?lookup_delete_ne, lookup_delete_eq
                      by (apply not_eq_sym; by apply temp_file_ne) ]).
Qed.

(** X8: when the tool has returned and [process] then raises
    AttributeError, the error is of SetTag, the first method call on the
    segment: the segmentation read from the mask file has no segment, so
    GetSegment gave [None]; by then the mask file and the input file are
    removed. *)
Theorem process_attribute_error inputNode ov os device w m w' :
  (tool_run inputNode ov os device w).2 = true ->
  process (Some inputNode) ov os device w = (Raised (AttributeError m), w') ->
  let tmp := temp_path (length (temp_dirs w)) in
  m = "SetTag"
  /\ exists node,
       os = Some node
       /\ segmentation_of w' node = []
       /\ disk w' !! (tmp +:+ "/hdbet-output_mask.nii.gz") = None
       /\ disk w' !! (tmp +:+ "/hdbet-input.nii.gz") = None.
Proof.
  intros _ Hrun tmp.
  refine (wp_raised _ (fun _ _ => True)
    (fun e w' => forall m, e = AttributeError m -> _ /\ exists node, _ /\ _ /\ _ /\ _)
    w _ _ _ Hrun m eq_refl).
  clear Hrun. apply wp_process. unfold read_results, input_written.
  repeat wp_step.
  all: try done.
  all: intros m' [= <-].
  all: unfold segmentation_of in *; cbn in *.
  all: repeat match goal with x := _ |- _ => subst x end.
  all: rewrite ?lookup_insert_eq in *; cbn in *.
  all: try match goal with
       | H : _ <$> GetSegment ?s (GetNthSegmentID ?s 0) = _ |- _ =>
           destruct s as [|[sid g] rest] eqn:Hread; cbn in *;
           rewrite ?String.eqb_refl in *; cbn in *
       end.
  all: try congruence.
  all: repeat match goal with
       | H : Some _ = Some _ |- _ => injection H as <-
       end.
  all: cbn in *; rewrite ?String.eqb_refl in *; cbn in *; try congruence.
  all: split; [done |]; eexists; split; [reflexivity |].
  all: rewrite ?lookup_insert_eq; cbn.
  all: split_and!; try done.
  all: by rewrite ?lookup_delete_eq, ?lookup_delete_ne, ?lookup_delete_eq
         by (apply not_eq_sym; by apply temp_file_ne).
Qed.

(** With an input volume [process] does not stop at its argument check. *)
Lemma process_passes_argument_check inputNode ov os device w e :
  process (Some inputNode) ov os device w ≠ (Raised e, w).
Proof.
  intros Hrun.
  pose proof (process_tool_calls temp_path HD_BET_path hd_bet read_labelmap
                inputNode ov os device w) as Hcalls.
  rewrite Hrun in Hcalls. cbn in Hcalls.
  apply (f_equal length) in Hcalls. rewrite length_app in Hcalls. cbn in Hcalls. lia.
Qed.

End ProcessFacts.

(** ** The refresh of the GUI *)

Ltac fields :=
  cbn [scene_nodes parameter_nodes observed _parameterNode _updatingGUIFromParameterNode
       ui trace record set_updating set_ui set_applyButton set_baseNames set_parameter_node
       set_observed set__parameterNode
       inputVolumeSelector outputVolumeSelector outputSegmentationSelector deviceComboBox
       applyButton_toolTip applyButton_enabled outputVolumeSelector_baseName
       outputSegmentationSelector_baseName mbind option_bind].

Section RefreshFacts.

Context (deviceItems : list string).

Local Abbreviation updateGUIFromParameterNode := (updateGUIFromParameterNode deviceItems).
Local Abbreviation updateParameterNodeFromGUI := (updateParameterNodeFromGUI deviceItems).

Ltac setter_exact :=
  let Hslot := fresh in
  let Hsame := fresh in
  let Hw := fresh in
  intros Hslot Hw; unfold sent;
  match goal with w : Widget |- _ => destruct w as [? ? ? ? ? [] ?] end;
  cbn in Hw; subst; cbn; case_bool_decide as Hsame; cbn;
  [ cbn in Hsame; subst; by rewrite app_nil_r
  | rewrite Hslot by done; done ].

Lemma inputVolumeSelector_setCurrentNode_exact slot node w :
  blocked slot -> _updatingGUIFromParameterNode w = true ->
  inputVolumeSelector_setCurrentNode slot node w =
  Some (mkWidget (scene_nodes w) (parameter_nodes w) (observed w) (_parameterNode w) true
          (mkUI node (outputVolumeSelector (ui w)) (outputSegmentationSelector (ui w))
             (deviceComboBox (ui w)) (applyButton_toolTip (ui w)) (applyButton_enabled (ui w))
             (outputVolumeSelector_baseName (ui w)) (outputSegmentationSelector_baseName (ui w)))
          (trace w ++ sent (bool_decide (inputVolumeSelector (ui w) = node)))).
Proof. unfold inputVolumeSelector_setCurrentNode. setter_exact. Qed.

Lemma outputVolumeSelector_setCurrentNode_exact slot node w :
  blocked slot -> _updatingGUIFromParameterNode w = true ->
  outputVolumeSelector_setCurrentNode slot node w =
  Some (mkWidget (scene_nodes w) (parameter_nodes w) (observed w) (_parameterNode w) true
          (mkUI (inputVolumeSelector (ui w)) node (outputSegmentationSelector (ui w))
             (deviceComboBox (ui w)) (applyButton_toolTip (ui w)) (applyButton_enabled (ui w))
             (outputVolumeSelector_baseName (ui w)) (outputSegmentationSelector_baseName (ui w)))
          (trace w ++ sent (bool_decide (outputVolumeSelector (ui w) = node)))).
Proof. unfold outputVolumeSelector_setCurrentNode. setter_exact. Qed.

Lemma outputSegmentationSelector_setCurrentNode_exact slot node w :
  blocked slot -> _updatingGUIFromParameterNode w = true ->
  outputSegmentationSelector_setCurrentNode slot node w =
  Some (mkWidget (scene_nodes w) (parameter_nodes w) (observed w) (_parameterNode w) true
          (mkUI (inputVolumeSelector (ui w)) (outputVolumeSelector (ui w)) node
             (deviceComboBox (ui w)) (applyButton_toolTip (ui w)) (applyButton_enabled (ui w))
             (outputVolumeSelector_baseName (ui w)) (outputSegmentationSelector_baseName (ui w)))
          (trace w ++ sent (bool_decide (outputSegmentationSelector (ui w) = node)))).
Proof. unfold outputSegmentationSelector_setCurrentNode. setter_exact. Qed.

Lemma deviceComboBox_setCurrentText_exact slot text w :
  blocked slot -> _updatingGUIFromParameterNode w = true ->
  deviceComboBox_setCurrentText deviceItems slot text w =
  Some (mkWidget (scene_nodes w) (parameter_nodes w) (observed w) (_parameterNode w) true
          (mkUI (inputVolumeSelector (ui w)) (outputVolumeSelector (ui w))
             (outputSegmentationSelector (ui w))
             (shown_device deviceItems text (deviceComboBox (ui w)))
             (applyButton_toolTip (ui w)) (applyButton_enabled (ui w))
             (outputVolumeSelector_baseName (ui w)) (outputSegmentationSelector_baseName (ui w)))
          (trace w ++ sent (bool_decide (shown_device deviceItems text (deviceComboBox (ui w))
                                         = deviceComboBox (ui w))))).
Proof.
  intros Hslot Hw. destruct w as [sc pns obs cur flag [i o s d tt en bv bs] tr].
  cbn in Hw. subst flag.
  unfold deviceComboBox_setCurrentText, shown_device, sent. cbn.
  destruct (findText deviceItems text 0 <? 0) eqn:Hneg; cbn.
  { rewrite bool_decide_eq_true_2 by done. by rewrite app_nil_r. }
  destruct (findText deviceItems text 0 =? d) eqn:Hsame.
  { rewrite bool_decide_eq_true_2 by done. by rewrite app_nil_r. }
  apply Z.eqb_neq in Hsame. rewrite bool_decide_eq_false_2 by done.
  rewrite Hslot by done. done.
Qed.

(** The state a refresh of an idle widget ends in, field by field. *)
Lemma updateGUIFromParameterNode_shows slot w p :
  blocked slot ->
  _parameterNode w = Some p -> _updatingGUIFromParameterNode w = false ->
  let pn := parameter_node_of w p in
  let input := GetNodeReference (scene_nodes w) pn "InputVolume" in
  let output := GetNodeReference (scene_nodes w) pn "OutputVolume" in
  let segmentation := GetNodeReference (scene_nodes w) pn "OutputSegmentation" in
  let index := shown_device deviceItems (GetParameter pn "Device") (deviceComboBox (ui w)) in
  let enabled := bool_decide (is_Some input)
                 && (bool_decide (is_Some output) || bool_decide (is_Some segmentation)) in
  updateGUIFromParameterNode_body deviceItems slot w =
  Some (mkWidget (scene_nodes w) (parameter_nodes w) (observed w) (Some p) false
          (mkUI input output segmentation index
             (if enabled then "Extract brain"
              else "Select input volume and at least one output")
             enabled
             (match input with
              | Some v => GetName w v +:+ " stripped"
              | None => outputVolumeSelector_baseName (ui w)
              end)
             (match input with
              | Some v => GetName w v +:+ " mask"
              | None => outputSegmentationSelector_baseName (ui w)
              end))
          (trace w ++ [CallUpdateGUIFromParameterNode false]
             ++ sent (bool_decide (inputVolumeSelector (ui w) = input))
             ++ sent (bool_decide (outputVolumeSelector (ui w) = output))
             ++ sent (bool_decide (outputSegmentationSelector (ui w) = segmentation))
             ++ sent (bool_decide (index = deviceComboBox (ui w))))).
Proof.
  destruct w as [sc pns obs cur flag [i o s d tt en bv bs] tr].
  fields. intros Hslot -> ->.
  unfold updateGUIFromParameterNode_body, parameter_node_of, GetName.
  cbv beta zeta. fields.
  rewrite inputVolumeSelector_setCurrentNode_exact; [| exact Hslot | reflexivity]. fields.
  rewrite outputVolumeSelector_setCurrentNode_exact; [| exact Hslot | reflexivity]. fields.
  rewrite outputSegmentationSelector_setCurrentNode_exact; [| exact Hslot | reflexivity]. fields.
  rewrite deviceComboBox_setCurrentText_exact; [| exact Hslot | reflexivity]. fields.
  set (pn := default _ (pns !! p)).
  f_equal.
  destruct (GetNodeReference sc pn "InputVolume") as [v|];
    destruct (bool_decide _ && _); unfold set_updating, set_baseNames, set_applyButton, set_ui;
    fields; rewrite <- ?app_assoc; reflexivity.
Qed.


Lemma sent_same `{EqDecision A} (x : A) : sent (bool_decide (x = x)) = [].
Proof. unfold sent. by rewrite bool_decide_eq_true_2. Qed.

Lemma findText_from items text i :
  findText items text i = -1 \/ i <= findText items text i.
Proof.
  revert i. induction items as [|x rest IH]; intros i; cbn; [by left |].
  destruct (String.eqb x text); [right; lia |].
  destruct (IH (i + 1)) as [-> | Hle]; [by left | right; lia].
Qed.

Lemma findText_nth items n i :
  NoDup items -> (n < length items)%nat ->
  findText items (nth n items "") i = i + Z.of_nat n.
Proof.
  intros Hnodup. revert n i.
  induction Hnodup as [|x rest Hx Hnodup IH]; intros n i Hn; cbn in *; [lia |].
  destruct n as [|n].
  - rewrite String.eqb_refl. lia.
  - destruct (String.eqb x (nth n rest "")) eqn:Heq.
    + apply String.eqb_eq in Heq. subst x. exfalso. apply Hx.
      apply list_elem_of_In, nth_In. lia.
    + rewrite IH by lia. lia.
Qed.

Lemma shown_device_idempotent text index :
  shown_device deviceItems text (shown_device deviceItems text index)
  = shown_device deviceItems text index.
Proof.
  unfold shown_device.
  destruct (findText deviceItems text 0 <? 0) eqn:Hneg; cbn; [done |].
  destruct (findText deviceItems text 0 =? index) eqn:Hsame; cbn.
  - by rewrite Hsame.
  - by rewrite Z.eqb_refl.
Qed.

(** X10: a refresh of an idle widget shows the parameter node: each node
    selector shows the node its reference names when the scene has it and
    nothing otherwise; the device box moves to the entry that equals the
    Device parameter and stays where it is when no entry does; the tool tip
    goes with the state of the Apply button; and the base names of the two
    output selectors are made from the name of the input volume, and are
    kept when there is none. *)
Theorem updateGUIFromParameterNode_shows_parameter_node depth w p :
  _parameterNode w = Some p -> _updatingGUIFromParameterNode w = false ->
  exists w',
    updateGUIFromParameterNode (S (S depth)) w = Some w'
    /\ let pn := parameter_node_of w p in
       let input := GetNodeReference (scene_nodes w) pn "InputVolume" in
       let found := findText deviceItems (GetParameter pn "Device") 0 in
       inputVolumeSelector (ui w') = input
       /\ outputVolumeSelector (ui w') = GetNodeReference (scene_nodes w) pn "OutputVolume"
       /\ outputSegmentationSelector (ui w')
            = GetNodeReference (scene_nodes w) pn "OutputSegmentation"
       /\ deviceComboBox (ui w') = (if found <? 0 then deviceComboBox (ui w) else found)
       /\ applyButton_toolTip (ui w')
            = (if applyButton_enabled (ui w') then "Extract brain"
               else "Select input volume and at least one output")
       /\ outputVolumeSelector_baseName (ui w')
            = match input with
              | Some v => GetName w v +:+ " stripped"
              | None => outputVolumeSelector_baseName (ui w)
              end
       /\ outputSegmentationSelector_baseName (ui w')
            = match input with
              | Some v => GetName w v +:+ " mask"
              | None => outputSegmentationSelector_baseName (ui w)
              end.
Proof.
  intros Hp Hw. rewrite updateGUIFromParameterNode_S.
  rewrite (updateGUIFromParameterNode_shows _ w p
             (updateParameterNodeFromGUI_blocked deviceItems _) Hp Hw).
  eexists. split; [reflexivity |]. cbv zeta. fields. split_and!; try done.
  unfold shown_device.
  destruct (findText deviceItems _ 0 <? 0); cbn; [done |].
  destruct (_ =? _) eqn:Hsame; [| done]. by apply Z.eqb_eq in Hsame.
Qed.

(** X11: a second refresh changes nothing: the GUI it leaves is the GUI of
    the first, no widget signal is sent, and so no slot runs. *)
Theorem updateGUIFromParameterNode_twice depth w p w' :
  _parameterNode w = Some p -> _updatingGUIFromParameterNode w = false ->
  updateGUIFromParameterNode (S (S depth)) w = Some w' ->
  exists w'',
    updateGUIFromParameterNode (S (S depth)) w' = Some w''
    /\ ui w'' = ui w'
    /\ trace w'' = (trace w' ++ [CallUpdateGUIFromParameterNode false])%list.
Proof.
  intros Hp Hw. rewrite updateGUIFromParameterNode_S.
  rewrite (updateGUIFromParameterNode_shows _ w p
             (updateParameterNodeFromGUI_blocked deviceItems _) Hp Hw).
  intros [= <-].
  rewrite (updateGUIFromParameterNode_shows _ _ p);
    [| apply updateParameterNodeFromGUI_blocked | reflexivity | reflexivity].
  eexists. split; [reflexivity |].
  unfold parameter_node_of, GetName. fields.
  rewrite shown_device_idempotent, !sent_same, !app_nil_r.
  split; [| done].
  by destruct (GetNodeReference _ _ "InputVolume").
Qed.


Lemma GetNodeReference_selected scene refs params role sel :
  selectable scene sel ->
  GetNodeReference scene
    (SetNodeReferenceID role (currentNodeID sel) (mkParameterNode refs params)) role = sel.
Proof.
  unfold GetNodeReference, SetNodeReferenceID, currentNodeID.
  destruct sel as [nodeID|]; cbn.
  - intros [Hne Hin]. apply String.eqb_neq in Hne. rewrite Hne. cbn.
    rewrite lookup_insert_eq. by rewrite bool_decide_eq_true_2.
  - intros _. by rewrite lookup_delete_eq.
Qed.

Lemma GetNodeReference_other scene pn role role' nodeID :
  role ≠ role' ->
  GetNodeReference scene (SetNodeReferenceID role' nodeID pn) role
  = GetNodeReference scene pn role.
Proof.
  intros Hne. unfold GetNodeReference, SetNodeReferenceID.
  destruct (String.eqb nodeID ""); cbn.
  - by rewrite lookup_delete_ne.
  - by rewrite lookup_insert_ne.
Qed.

Lemma GetNodeReference_SetParameter scene pn role k v :
  GetNodeReference scene (SetParameter k v pn) role = GetNodeReference scene pn role.
Proof. done. Qed.

(** The parameter node read back after the batch of
    [updateParameterNodeFromGUI]. *)
Lemma parameter_node_from_GUI_read scene u pn :
  selectable scene (inputVolumeSelector u) ->
  selectable scene (outputVolumeSelector u) ->
  selectable scene (outputSegmentationSelector u) ->
  GetNodeReference scene (parameter_node_from_GUI deviceItems u pn) "InputVolume"
    = inputVolumeSelector u
  /\ GetNodeReference scene (parameter_node_from_GUI deviceItems u pn) "OutputVolume"
      = outputVolumeSelector u
  /\ GetNodeReference scene (parameter_node_from_GUI deviceItems u pn) "OutputSegmentation"
      = outputSegmentationSelector u
  /\ GetParameter (parameter_node_from_GUI deviceItems u pn) "Device" = currentText deviceItems u.
Proof.
  intros Hi Ho Hs. unfold parameter_node_from_GUI.
  rewrite !GetNodeReference_SetParameter. split_and!.
  - rewrite !GetNodeReference_other by done.
    destruct pn. by apply GetNodeReference_selected.
  - rewrite GetNodeReference_other by done.
    destruct (SetNodeReferenceID "InputVolume" _ pn). by apply GetNodeReference_selected.
  - destruct (SetNodeReferenceID "OutputVolume" _ _). by apply GetNodeReference_selected.
  - unfold GetParameter, SetParameter. cbn. by rewrite lookup_insert_eq.
Qed.

Lemma shown_device_currentText u :
  NoDup deviceItems ->
  0 <= deviceComboBox u < Z.of_nat (length deviceItems) ->
  shown_device deviceItems (currentText deviceItems u) (deviceComboBox u) = deviceComboBox u.
Proof.
  intros Hnodup Hrange. unfold shown_device, currentText.
  destruct (deviceComboBox u <? 0) eqn:Hneg; [lia |].
  rewrite findText_nth by (done || lia).
  rewrite Z2Nat.id by lia. cbn.
  rewrite Z.eqb_refl, orb_true_r. done.
Qed.

(** X12: the GUI read back after a change: when the node selectors show
    nodes of the scene and the device box shows one of its entries, all of
    them different, [updateParameterNodeFromGUI] leaves a parameter node
    whose three references and Device parameter are what the GUI shows, and
    the refresh that follows does not move any of the four widgets. *)
Theorem gui_round_trip depth w p :
  _parameterNode w = Some p -> _updatingGUIFromParameterNode w = false ->
  selectable (scene_nodes w) (inputVolumeSelector (ui w)) ->
  selectable (scene_nodes w) (outputVolumeSelector (ui w)) ->
  selectable (scene_nodes w) (outputSegmentationSelector (ui w)) ->
  NoDup deviceItems ->
  0 <= deviceComboBox (ui w) < Z.of_nat (length deviceItems) ->
  exists w',
    updateParameterNodeFromGUI (S (S (S depth))) w = Some w'
    /\ GetNodeReference (scene_nodes w') (parameter_node_of w' p) "InputVolume"
         = inputVolumeSelector (ui w)
    /\ GetNodeReference (scene_nodes w') (parameter_node_of w' p) "OutputVolume"
         = outputVolumeSelector (ui w)
    /\ GetNodeReference (scene_nodes w') (parameter_node_of w' p) "OutputSegmentation"
         = outputSegmentationSelector (ui w)
    /\ GetParameter (parameter_node_of w' p) "Device" = currentText deviceItems (ui w)
    /\ inputVolumeSelector (ui w') = inputVolumeSelector (ui w)
    /\ outputVolumeSelector (ui w') = outputVolumeSelector (ui w)
    /\ outputSegmentationSelector (ui w') = outputSegmentationSelector (ui w)
    /\ deviceComboBox (ui w') = deviceComboBox (ui w).
Proof.
  intros Hp Hw Hi Ho Hs Hnodup Hrange.
  destruct (parameter_node_from_GUI_read (scene_nodes w) (ui w) (parameter_node_of w p)
              Hi Ho Hs) as (Ri & Ro & Rs & Rd).
  pose proof (shown_device_currentText (ui w) Hnodup Hrange) as Hdev.
  rewrite updateParameterNodeFromGUI_S, updateGUIFromParameterNode_S.
  unfold updateParameterNodeFromGUI_body, EndModify. cbv zeta. fields. rewrite Hp, Hw.
  unfold parameter_node_of in *. fields. rewrite lookup_insert_eq. cbn [default from_option id].
  set (pn := parameter_node_from_GUI deviceItems (ui w) _) in *.
  case_bool_decide as Hsame; [| case_bool_decide as Hobs].
  - eexists. split; [reflexivity |]. fields.
    rewrite lookup_insert_eq. done.
  - rewrite (updateGUIFromParameterNode_shows _ _ p);
      [| apply updateParameterNodeFromGUI_blocked | done | done].
    eexists. split; [reflexivity |]. unfold parameter_node_of. fields.
    rewrite lookup_insert_eq. cbn [default from_option id].
    rewrite Ri, Ro, Rs, Rd, Hdev. done.
  - eexists. split; [reflexivity |]. fields.
    rewrite lookup_insert_eq. done.
Qed.

End RefreshFacts.

(** ** The widget's life cycle *)

Section LifeCycleFacts.

Context (deviceItems : list string) (moduleParameterNode : string)
  (firstVolumeNode : gmap string string -> option string).

Local Abbreviation updateGUIFromParameterNode := (updateGUIFromParameterNode deviceItems).
Local Abbreviation updateParameterNodeFromGUI := (updateParameterNodeFromGUI deviceItems).
Local Abbreviation setParameterNode := (setParameterNode deviceItems).
Local Abbreviation initializeParameterNode :=
  (initializeParameterNode deviceItems moduleParameterNode firstVolumeNode).

Lemma updateGUIFromParameterNode_idle depth w :
  _updatingGUIFromParameterNode w = false ->
  exists w', updateGUIFromParameterNode (S (S depth)) w = Some w' /\ refreshed w w'.
Proof.
  intros Hw. rewrite updateGUIFromParameterNode_S. unfold refreshed.
  destruct (_parameterNode w) as [p|] eqn:Hp.
  - rewrite (updateGUIFromParameterNode_shows _ _ w p
               (updateParameterNodeFromGUI_blocked deviceItems _) Hp Hw).
    eexists. split; [reflexivity |]. unfold shows, parameter_node_of. fields. done.
  - unfold updateGUIFromParameterNode_body. cbv zeta. fields. rewrite Hp.
    eexists. split; [reflexivity |]. fields. done.
Qed.


(** A change of a parameter node outside a batch, on a widget that is not
    being refreshed: the node is written, and the GUI is refreshed exactly
    when the node changed and the widget observes it. *)
Lemma modify_parameter_node_idle depth p events f w :
  _updatingGUIFromParameterNode w = false ->
  exists w',
    modify_parameter_node (updateGUIFromParameterNode (S (S depth))) p events f w = Some w'
    /\ scene_nodes w' = scene_nodes w
    /\ parameter_nodes w' = <[p := f (parameter_node_of w p)]> (parameter_nodes w)
    /\ observed w' = observed w
    /\ _parameterNode w' = _parameterNode w
    /\ _updatingGUIFromParameterNode w' = false
    /\ (f (parameter_node_of w p) = parameter_node_of w p \/ p ∉ observed w -> ui w' = ui w)
    /\ (f (parameter_node_of w p) ≠ parameter_node_of w p -> p ∈ observed w ->
        refreshed (set_parameter_node p (f (parameter_node_of w p)) w) w').
Proof.
  intros Hw. unfold modify_parameter_node, EndModify. cbv zeta. fields.
  assert (Hnew : parameter_node_of
            (record events (set_parameter_node p (f (parameter_node_of w p)) w)) p
          = f (parameter_node_of w p)).
  { unfold parameter_node_of. fields. by rewrite lookup_insert_eq. }
  rewrite Hnew.
  case_bool_decide as Hsame; [| case_bool_decide as Hobs].
  - eexists. split; [reflexivity |]. fields. split_and!; try done.
  - match goal with
    | |- context [updateGUIFromParameterNode (S (S depth)) ?v] =>
        destruct (updateGUIFromParameterNode_idle depth v Hw)
          as (w' & -> & Hs & Hpn & Ho & Hn & Hf & Hui)
    end.
    exists w'. fields. cbn [scene_nodes parameter_nodes observed _parameterNode] in *.
    split_and!; try done.
    by intros [? | ?].
  - eexists. split; [reflexivity |]. fields. split_and!; try done.
Qed.


Lemma addObserver_observed p w :
  observed (addObserver p w) = if bool_decide (p ∈ observed w) then observed w
                                else (observed w ++ [p])%list.
Proof. unfold addObserver. by case_bool_decide. Qed.

Lemma addObserver_frame p w :
  scene_nodes (addObserver p w) = scene_nodes w
  /\ parameter_nodes (addObserver p w) = parameter_nodes w
  /\ _parameterNode (addObserver p w) = _parameterNode w
  /\ _updatingGUIFromParameterNode (addObserver p w) = _updatingGUIFromParameterNode w
  /\ ui (addObserver p w) = ui w.
Proof. unfold addObserver. by case_bool_decide. Qed.

Lemma setParameterNode_idle depth ip w :
  _updatingGUIFromParameterNode w = false ->
  exists w',
    setParameterNode (S (S depth)) ip w = Some w'
    /\ scene_nodes w' = scene_nodes w
    /\ _parameterNode w' = ip
    /\ _updatingGUIFromParameterNode w' = false
    /\ match ip with
       | Some p =>
           parameter_node_of w' p = setDefaultParameters (parameter_node_of w p)
           /\ (forall q, q ≠ p -> parameter_nodes w' !! q = parameter_nodes w !! q)
           /\ observed w' = (if bool_decide (p ∈ unobserved w) then unobserved w
                             else (unobserved w ++ [p])%list)
           /\ shows w' p
       | None =>
           parameter_nodes w' = parameter_nodes w
           /\ observed w' = unobserved w
           /\ ui w' = ui w
       end.
Proof.
  intros Hw. unfold setParameterNode.
  assert (Hdefault : exists w1,
    match ip with
    | Some p => logic_setDefaultParameters (updateGUIFromParameterNode (S (S depth))) p w
    | None => Some w
    end = Some w1
    /\ scene_nodes w1 = scene_nodes w
    /\ observed w1 = observed w
    /\ _parameterNode w1 = _parameterNode w
    /\ _updatingGUIFromParameterNode w1 = false
    /\ match ip with
       | Some p =>
           parameter_node_of w1 p = setDefaultParameters (parameter_node_of w p)
           /\ (forall q, q ≠ p -> parameter_nodes w1 !! q = parameter_nodes w !! q)
       | None => parameter_nodes w1 = parameter_nodes w /\ ui w1 = ui w
       end).
  { destruct ip as [p|]; [| by exists w].
    unfold logic_setDefaultParameters.
    destruct (negb _) eqn:Hdevice.
    - destruct (modify_parameter_node_idle depth p [WriteParameter "Device" "auto"]
                  setDefaultParameters w Hw)
        as (w1 & -> & Hs & Hpn & Ho & Hn & Hf & _).
      exists w1. split_and!; try done.
      + unfold parameter_node_of at 1. by rewrite Hpn, lookup_insert_eq.
      + intros q Hq. by rewrite Hpn, lookup_insert_ne.
    - exists w. split_and!; try done.
      unfold setDefaultParameters. by rewrite Hdevice. }
  destruct Hdefault as (w1 & -> & Hs1 & Ho1 & Hn1 & Hf1 & Hip). cbv zeta. fields.
  set (w2 := match _parameterNode w1 with Some q => removeObserver q w1 | None => w1 end).
  assert (H2 : scene_nodes w2 = scene_nodes w1 /\ parameter_nodes w2 = parameter_nodes w1
               /\ _updatingGUIFromParameterNode w2 = false /\ ui w2 = ui w1
               /\ observed w2 = unobserved w).
  { subst w2. unfold unobserved. rewrite <- Hn1, <- Ho1. by destruct (_parameterNode w1). }
  destruct H2 as (Hs2 & Hpn2 & Hf2 & Hui2 & Ho2). clearbody w2.
  set (w3 := match ip with
             | Some q => addObserver q (set__parameterNode ip w2)
             | None => set__parameterNode ip w2
             end).
  assert (H3 : scene_nodes w3 = scene_nodes w2 /\ parameter_nodes w3 = parameter_nodes w2
               /\ _parameterNode w3 = ip
               /\ _updatingGUIFromParameterNode w3 = false /\ ui w3 = ui w2
               /\ observed w3 = match ip with
                                | Some p => if bool_decide (p ∈ observed w2) then observed w2
                                            else (observed w2 ++ [p])%list
                                | None => observed w2
                                end).
  { subst w3. destruct ip as [p|]; [| by fields].
    destruct (addObserver_frame p (set__parameterNode (Some p) w2)) as (-> & -> & -> & -> & ->).
    rewrite addObserver_observed. by fields. }
  destruct H3 as (Hs3 & Hpn3 & Hn3 & Hf3 & Hui3 & Ho3).
  clearbody w3.
  destruct (updateGUIFromParameterNode_idle depth w3 Hf3)
    as (w' & -> & Hs & Hpn & Ho & Hn & Hf & Hui).
  exists w'. split_and!; try congruence.
  rewrite Hn3 in Hui. destruct ip as [p|].
  - destruct Hip as (Hp & Hq). split_and!; try done.
    + unfold parameter_node_of in *. by rewrite Hpn, Hpn3, Hpn2.
    + intros q Hne. rewrite Hpn, Hpn3, Hpn2. by apply Hq.
    + by rewrite Ho, Ho3, Ho2.
  - destruct Hip as (Hp & Hu). split_and!; congruence.
Qed.


Lemma GetNodeReference_setDefaultParameters scene pn role :
  GetNodeReference scene (setDefaultParameters pn) role = GetNodeReference scene pn role.
Proof. unfold setDefaultParameters. by destruct (negb _). Qed.

Lemma shows_same w w' p :
  scene_nodes w' = scene_nodes w -> parameter_node_of w' p = parameter_node_of w p ->
  ui w' = ui w -> shows w p -> shows w' p.
Proof. unfold shows. by intros -> -> ->. Qed.

Lemma initializeParameterNode_idle depth w :
  _updatingGUIFromParameterNode w = false ->
  exists w',
    initializeParameterNode (S (S depth)) w = Some w'
    /\ scene_nodes w' = scene_nodes w
    /\ _parameterNode w' = Some moduleParameterNode
    /\ _updatingGUIFromParameterNode w' = false
    /\ observed w' = (if bool_decide (moduleParameterNode ∈ unobserved w) then unobserved w
                      else (unobserved w ++ [moduleParameterNode])%list)
    /\ (forall q, q ≠ moduleParameterNode -> parameter_nodes w' !! q = parameter_nodes w !! q)
    /\ shows w' moduleParameterNode
    /\ parameter_node_of w' moduleParameterNode =
         (let pn := setDefaultParameters (parameter_node_of w moduleParameterNode) in
          match GetNodeReference (scene_nodes w) pn "InputVolume",
                firstVolumeNode (scene_nodes w) with
          | None, Some v => SetNodeReferenceID "InputVolume" v pn
          | _, _ => pn
          end).
Proof.
  intros Hw. unfold initializeParameterNode.
  destruct (setParameterNode_idle depth (Some moduleParameterNode) w Hw)
    as (w1 & -> & Hs1 & Hn1 & Hf1 & Hpn1 & Hq1 & Ho1 & Hshows1).
  fields. rewrite Hn1, Hs1, Hpn1. cbv zeta.
  destruct (GetNodeReference _ _ "InputVolume") as [u|] eqn:Hinput; cbn [negb];
    [rewrite bool_decide_eq_true_2 by done | rewrite bool_decide_eq_false_2 by by intros []];
    cbn [negb].
  { exists w1. split_and!; done. }
  destruct (firstVolumeNode (scene_nodes w)) as [v|]; [| exists w1; split_and!; done].
  destruct (modify_parameter_node_idle depth moduleParameterNode
              [WriteNodeReferenceID "InputVolume" v] (SetNodeReferenceID "InputVolume" v) w1 Hf1)
    as (w' & -> & Hs & Hpn & Ho & Hn & Hf & Hsame & Hchanged).
  rewrite Hpn1 in Hpn, Hsame, Hchanged.
  assert (Hnode : parameter_node_of w' moduleParameterNode
                  = SetNodeReferenceID "InputVolume" v
                      (setDefaultParameters (parameter_node_of w moduleParameterNode))).
  { unfold parameter_node_of at 1. by rewrite Hpn, lookup_insert_eq. }
  exists w'. split_and!; try congruence.
  - intros q Hq. rewrite Hpn, lookup_insert_ne by done. by apply Hq1.
  - destruct (decide (SetNodeReferenceID "InputVolume" v
                        (setDefaultParameters (parameter_node_of w moduleParameterNode))
                      = setDefaultParameters (parameter_node_of w moduleParameterNode)))
      as [Hsame' | Hdiff].
    + apply (shows_same w1); [congruence | congruence | by apply Hsame; left | done].
    + assert (Hin : moduleParameterNode ∈ observed w1).
      { rewrite Ho1. case_bool_decide; [done |]. apply elem_of_app. right. by constructor. }
      destruct (Hchanged Hdiff Hin) as (_ & _ & _ & _ & _ & Hui).
      cbn [_parameterNode set_parameter_node] in Hui. by rewrite Hn1 in Hui.
Qed.




(** X14: [setParameterNode] on a node makes sure the node has a device and
    shows it: the Device parameter is "auto" if it was empty and as it was
    otherwise, the node's references and the other parameter nodes are as
    they were, and the GUI shows the node. *)
Theorem setParameterNode_defaults_and_shows depth p w :
  _updatingGUIFromParameterNode w = false ->
  exists w',
    setParameterNode (S (S depth)) (Some p) w = Some w'
    /\ GetParameter (parameter_node_of w' p) "Device"
       = (if String.eqb (GetParameter (parameter_node_of w p) "Device") "" then "auto"
          else GetParameter (parameter_node_of w p) "Device")
    /\ references (parameter_node_of w' p) = references (parameter_node_of w p)
    /\ (forall q, q ≠ p -> parameter_nodes w' !! q = parameter_nodes w !! q)
    /\ shows w' p.
Proof.
  intros Hw.
  destruct (setParameterNode_idle depth (Some p) w Hw)
    as (w' & -> & _ & _ & _ & Hpn & Hq & _ & Hshows).
  exists w'. split_and!; try done.
  - rewrite Hpn. unfold setDefaultParameters, truthy_str. rewrite negb_involutive.
    destruct (String.eqb _ "") eqn:Hempty; [| done].
    unfold GetParameter, SetParameter. cbn. by rewrite lookup_insert_eq.
  - rewrite Hpn. unfold setDefaultParameters. by destruct (negb _).
Qed.

(** X15: when the scene is about to close, the widget lets go of its
    parameter node: [onSceneStartClose] leaves the GUI and the parameter
    nodes as they are, and after it a change in the GUI writes nothing. *)
Theorem onSceneStartClose_detaches depth depth' w :
  _updatingGUIFromParameterNode w = false ->
  exists w',
    onSceneStartClose deviceItems (S (S depth)) w = Some w'
    /\ _parameterNode w' = None
    /\ ui w' = ui w
    /\ parameter_nodes w' = parameter_nodes w
    /\ updateParameterNodeFromGUI (S depth') w'
       = Some (record [CallUpdateParameterNodeFromGUI false] w').
Proof.
  intros Hw. unfold onSceneStartClose.
  destruct (setParameterNode_idle depth None w Hw)
    as (w' & -> & _ & Hn & Hf & Hpn & _ & Hui).
  exists w'. split_and!; try done.
  rewrite updateParameterNodeFromGUI_S. unfold updateParameterNodeFromGUI_body.
  cbv zeta. fields. by rewrite Hn, Hf.
Qed.

(** X16: after [exit] a change in the GUI is still written to the parameter
    node, in one batch, but the GUI is not refreshed: no call of
    [updateGUIFromParameterNode] follows. *)
Theorem exit_stops_refresh depth w p :
  _parameterNode w = Some p -> _updatingGUIFromParameterNode w = false ->
  exists w',
    updateParameterNodeFromGUI (S depth) (exit w) = Some w'
    /\ parameter_node_of w' p = parameter_node_from_GUI deviceItems (ui w) (parameter_node_of w p)
    /\ ui w' = ui w
    /\ (trace w' =
          (trace w ++ CallUpdateParameterNodeFromGUI false :: writes_from_GUI deviceItems (ui w))%list
        \/ trace w' =
          (trace w ++ CallUpdateParameterNodeFromGUI false :: writes_from_GUI deviceItems (ui w)
             ++ [ModifiedEvent p])%list).
Proof.
  intros Hp Hw. rewrite updateParameterNodeFromGUI_S.
  unfold updateParameterNodeFromGUI_body, EndModify, exit, removeObserver. rewrite Hp.
  cbv zeta. fields. rewrite Hp, Hw.
  unfold parameter_node_of. fields. rewrite lookup_insert_eq. cbn [default from_option id].
  assert (Hgone : p ∉ List.filter (fun q => negb (String.eqb q p)) (observed w)).
  { intros Hin%list_elem_of_In%filter_In. destruct Hin as [_ Hin].
    by rewrite String.eqb_refl in Hin. }
  rewrite (bool_decide_eq_false_2 _ Hgone).
  case_bool_decide; eexists; (split; [reflexivity |]); fields;
    rewrite lookup_insert_eq; split_and!; try done.
  - left. by rewrite <- app_assoc.
  - right. by rewrite <- !app_assoc.
Qed.

(** X17: [initializeParameterNode] selects a default input: when the
    module's parameter node refers to no input volume of the scene and the
    scene has a volume, the node is made to refer to the first one, the
    input selector shows it, and the other references are as they were. *)
Theorem initializeParameterNode_selects_first_volume depth w v :
  _updatingGUIFromParameterNode w = false ->
  GetNodeReference (scene_nodes w) (parameter_node_of w moduleParameterNode) "InputVolume" = None ->
  firstVolumeNode (scene_nodes w) = Some v ->
  v ≠ "" -> is_Some (scene_nodes w !! v) ->
  exists w',
    initializeParameterNode (S (S depth)) w = Some w'
    /\ GetNodeReference (scene_nodes w') (parameter_node_of w' moduleParameterNode) "InputVolume"
       = Some v
    /\ inputVolumeSelector (ui w') = Some v
    /\ (forall role, role ≠ "InputVolume" ->
        GetNodeReference (scene_nodes w') (parameter_node_of w' moduleParameterNode) role
        = GetNodeReference (scene_nodes w) (parameter_node_of w moduleParameterNode) role).
Proof.
  intros Hw Hnone Hfirst Hv Hscene.
  destruct (initializeParameterNode_idle depth w Hw)
    as (w' & -> & Hs & _ & _ & _ & _ & Hshows & Hpn).
  cbv zeta in Hpn.
  rewrite GetNodeReference_setDefaultParameters, Hnone, Hfirst in Hpn.
  assert (Hread : GetNodeReference (scene_nodes w') (parameter_node_of w' moduleParameterNode)
                    "InputVolume" = Some v).
  { rewrite Hpn, Hs. destruct (setDefaultParameters _) as [refs params].
    by apply (GetNodeReference_selected (scene_nodes w) refs params "InputVolume" (Some v)). }
  exists w'. split_and!; try done.
  - destruct Hshows as (-> & _). done.
  - intros role Hrole. rewrite Hpn, Hs, GetNodeReference_other by done.
    apply GetNodeReference_setDefaultParameters.
Qed.

(** X18: [initializeParameterNode] keeps an input volume that is selected,
    and selects none when the scene has no volume: in both cases the
    references of the module's parameter node are as they were. *)
Theorem initializeParameterNode_keeps_input depth w :
  _updatingGUIFromParameterNode w = false ->
  is_Some (GetNodeReference (scene_nodes w) (parameter_node_of w moduleParameterNode)
             "InputVolume")
  \/ firstVolumeNode (scene_nodes w) = None ->
  exists w',
    initializeParameterNode (S (S depth)) w = Some w'
    /\ references (parameter_node_of w' moduleParameterNode)
       = references (parameter_node_of w moduleParameterNode)
    /\ inputVolumeSelector (ui w')
       = GetNodeReference (scene_nodes w) (parameter_node_of w moduleParameterNode) "InputVolume".
Proof.
  intros Hw Hkeep.
  destruct (initializeParameterNode_idle depth w Hw)
    as (w' & -> & Hs & _ & _ & _ & _ & Hshows & Hpn).
  cbv zeta in Hpn. rewrite GetNodeReference_setDefaultParameters in Hpn.
  assert (Hpn' : parameter_node_of w' moduleParameterNode
                 = setDefaultParameters (parameter_node_of w moduleParameterNode)).
  { destruct Hkeep as [[u Hu] | Hnone]; [by rewrite Hu in Hpn |].
    rewrite Hnone in Hpn. by destruct (GetNodeReference _ _ _). }
  exists w'. split_and!; try done.
  - rewrite Hpn'. unfold setDefaultParameters. by destruct (negb _).
  - destruct Hshows as (-> & _).
    by rewrite Hpn', Hs, GetNodeReference_setDefaultParameters.
Qed.


End LifeCycleFacts.

(** ** The Apply button *)

Section ApplyFacts.

Context (temp_path : nat -> string) (HD_BET_path : string)
  (hd_bet : RunArgs -> gmap string ImageData -> gmap string ImageData * bool)
  (read_labelmap : ImageData -> Segmentation -> Segmentation)
  (deviceItems : list string).

Local Abbreviation onApplyButton_process :=
  (onApplyButton_process temp_path HD_BET_path hd_bet read_labelmap).

(** X20: the Apply button guards the argument check of [process]: when a
    refresh has enabled the button, the selectors show an input volume and
    at least one output, so the call of [process] that [onApplyButton]
    makes does not stop at the check of its input volume. *)
Theorem onApplyButton_enabled_has_input depth w p w' world :
  _parameterNode w = Some p -> _updatingGUIFromParameterNode w = false ->
  updateGUIFromParameterNode deviceItems (S (S depth)) w = Some w' ->
  applyButton_enabled (ui w') = true ->
  is_Some (inputVolumeSelector (ui w'))
  /\ (is_Some (outputVolumeSelector (ui w')) \/ is_Some (outputSegmentationSelector (ui w')))
  /\ onApplyButton_process (ui w') world
     ≠ (Raised (ValueError "Input or output volume is invalid"), world).
Proof.
  intros Hp Hw. rewrite updateGUIFromParameterNode_S.
  rewrite (updateGUIFromParameterNode_shows _ _ w p
             (updateParameterNodeFromGUI_blocked deviceItems _) Hp Hw).
  intros [= <-]. fields.
  rewrite andb_true_iff, orb_true_iff, !bool_decide_eq_true.
  intros (Hinput & Houtput). split_and!; try done.
  destruct Hinput as [inputNode Hinput].
  unfold onApplyButton_process. fields. rewrite Hinput.
  apply process_passes_argument_check.
Qed.

End ApplyFacts.

(** ** The further properties on the concrete environment *)

Lemma process_explicit_device_witness :
  exists args,
    tool_calls (io_log (Demo.run (Some Demo.input_node) (Some "out") None (DevInt 1)
                          Demo.world).2) = [args]
    /\ run_device args = DevInt 1
    /\ mode args = "accurate"
    /\ do_tta args = true.
Proof.
  destruct (process_explicit_device Demo.temp_path Demo.HD_BET_path Demo.threshold_tool
              Demo.read_binary_labelmap Demo.input_node (Some "out") None (DevInt 1)
              Demo.world eq_refl)
    as (args & Hcalls & Hdev & Hmode & Htta); [discriminate |].
  exists args. split_and!; done.
Defined.

Lemma process_falsy_device_witness :
  Demo.run (Some Demo.input_node) (Some "out") (Some "seg") (DevInt 0) Demo.world
  = Demo.run (Some Demo.input_node) (Some "out") (Some "seg") (DevStr "auto") Demo.world.
Proof.
  apply (process_falsy_device Demo.temp_path Demo.HD_BET_path Demo.threshold_tool
           Demo.read_binary_labelmap). reflexivity.
Defined.

Lemma process_output_volume_read_witness :
  let r := Demo.run (Some Demo.input_node) (Some "out") None (DevStr "cpu") Demo.world in
  r = (Returned tt, r.2) /\ volume_of r.2 "out" = [0; 3; 5; 0].
Proof.
  intros r.
  assert (Hrun : r = (Returned tt, r.2)) by (vm_compute; reflexivity).
  split; [exact Hrun |].
  destruct (process_output_volume_read Demo.temp_path Demo.HD_BET_path Demo.threshold_tool
              Demo.read_binary_labelmap _ _ _ _ _ _ Hrun)
    as (inputNode & img & Hin & Himg & Hvol).
  injection Hin as <-. vm_compute in Himg. injection Himg as <-. exact Hvol.
Defined.

Lemma process_keeps_temp_folder_witness :
  let r := Demo.run_failing (Some Demo.input_node) (Some "out") (Some "seg") DevNone Demo.world in
  r.1 = Raised ToolError /\ temp_dirs r.2 = ["/tmp/Slicer/__SlicerTemp__"].
Proof.
  intros r. split; [vm_compute; reflexivity |].
  apply (process_keeps_temp_folder Demo.temp_path Demo.HD_BET_path Demo.failing_tool
           Demo.read_binary_labelmap (Some Demo.input_node) (Some "out") (Some "seg") DevNone
           Demo.world).
  vm_compute. discriminate.
Defined.

Lemma process_missing_file_witness :
  let r := Cases.run_idle (Some Demo.input_node) (Some "out") (Some "seg") DevNone Demo.world in
  r.1 = Raised (FileNotFoundError Demo.output_file)
  /\ volumes r.2 = volumes Demo.world
  /\ segmentations r.2 = segmentations Demo.world
  /\ disk r.2 !! Demo.input_file = None.
Proof.
  intros r.
  assert (Hrun : r = (Raised (FileNotFoundError Demo.output_file), r.2))
    by (vm_compute; reflexivity).
  split; [by rewrite Hrun |].
  destruct (process_missing_file Demo.temp_path Demo.HD_BET_path Cases.idle_tool
              Demo.read_binary_labelmap Demo.input_node (Some "out") (Some "seg") DevNone
              Demo.world _ _ eq_refl Hrun)
    as [(Hf & _) | [(_ & _ & Hvol & Hseg & Hdisk) | (Hf & _)]].
  - vm_compute in Hf. discriminate.
  - exact (conj Hvol (conj Hseg Hdisk)).
  - vm_compute in Hf. discriminate.
Defined.

Lemma process_attribute_error_witness :
  let r := Demo.run (Some Demo.input_node) None (Some "seg") DevNone Cases.blank_world in
  r.1 = Raised (AttributeError "SetTag")
  /\ segmentation_of r.2 "seg" = []
  /\ disk r.2 !! Demo.output_segmentation_file = None
  /\ disk r.2 !! Demo.input_file = None.
Proof.
  intros r.
  assert (Hrun : r = (Raised (AttributeError "SetTag"), r.2)) by (vm_compute; reflexivity).
  split; [by rewrite Hrun |].
  destruct (process_attribute_error Demo.temp_path Demo.HD_BET_path Demo.threshold_tool
              Demo.read_binary_labelmap Demo.input_node None (Some "seg") DevNone
              Cases.blank_world _ _ eq_refl Hrun)
    as (_ & node & Hnode & Hseg & Hmask & Hinput).
  injection Hnode as <-. exact (conj Hseg (conj Hmask Hinput)).
Defined.

Lemma updateGUIFromParameterNode_shows_parameter_node_witness :
  exists w',
    updateGUIFromParameterNode Demo.deviceItems 2 Demo.widget = Some w'
    /\ inputVolumeSelector (ui w') = Some "vtkMRMLScalarVolumeNode1"
    /\ outputVolumeSelector (ui w') = None
    /\ outputSegmentationSelector (ui w') = Some "vtkMRMLSegmentationNode1"
    /\ deviceComboBox (ui w') = 1
    /\ outputVolumeSelector_baseName (ui w') = "MRBrainTumor1 stripped".
Proof.
  destruct (updateGUIFromParameterNode_shows_parameter_node Demo.deviceItems 0 Demo.widget
              "vtkMRMLScriptedModuleNode1" eq_refl eq_refl)
    as (w' & Hrun & Hi & Ho & Hs & Hd & _ & Hb & _).
  exists w'. split; [exact Hrun |].
  rewrite Hi, Ho, Hs, Hd, Hb. vm_compute. done.
Defined.

Lemma updateGUIFromParameterNode_twice_witness :
  exists w' w'',
    updateGUIFromParameterNode Demo.deviceItems 2 Demo.widget = Some w'
    /\ updateGUIFromParameterNode Demo.deviceItems 2 w' = Some w''
    /\ ui w'' = ui w'
    /\ trace w'' = (trace w' ++ [CallUpdateGUIFromParameterNode false])%list.
Proof.
  set (w' := default Demo.widget (updateGUIFromParameterNode Demo.deviceItems 2 Demo.widget)).
  assert (Hrun : updateGUIFromParameterNode Demo.deviceItems 2 Demo.widget = Some w')
    by (vm_compute; reflexivity).
  destruct (updateGUIFromParameterNode_twice Demo.deviceItems 0 Demo.widget
              "vtkMRMLScriptedModuleNode1" w' eq_refl eq_refl Hrun)
    as (w'' & Hagain & Hui & Htrace).
  exists w', w''. exact (conj Hrun (conj Hagain (conj Hui Htrace))).
Defined.

Lemma Demo_deviceItems_NoDup : NoDup Demo.deviceItems.
Proof.
  unfold Demo.deviceItems.
  repeat (apply NoDup_cons_2;
          [ rewrite ?elem_of_cons, elem_of_nil; intros Hin;
            repeat (destruct Hin as [Hin | Hin]; [discriminate Hin |]); exact Hin |]).
  apply NoDup_nil_2.
Qed.

Lemma gui_round_trip_witness :
  exists w',
    updateParameterNodeFromGUI Demo.deviceItems 3 Cases.chosen = Some w'
    /\ GetNodeReference (scene_nodes w') (parameter_node_of w' "vtkMRMLScriptedModuleNode1")
         "InputVolume" = Some "vtkMRMLScalarVolumeNode1"
    /\ GetParameter (parameter_node_of w' "vtkMRMLScriptedModuleNode1") "Device" = "cpu"
    /\ inputVolumeSelector (ui w') = Some "vtkMRMLScalarVolumeNode1"
    /\ deviceComboBox (ui w') = 1.
Proof.
  assert (Hscene : forall node name,
            scene_nodes Cases.chosen !! node = Some name ->
            node ≠ "" -> selectable (scene_nodes Cases.chosen) (Some node)).
  { intros node name Hnode Hne. split; [done | by eexists]. }
  destruct (gui_round_trip Demo.deviceItems 0 Cases.chosen "vtkMRMLScriptedModuleNode1"
              eq_refl eq_refl)
    as (w' & Hrun & Hi & _ & _ & Hd & Hsi & _ & _ & Hsd).
  - by apply (Hscene _ "MRBrainTumor1").
  - done.
  - by apply (Hscene _ "Segmentation").
  - exact Demo_deviceItems_NoDup.
  - vm_compute. split; [discriminate | reflexivity].
  - exists w'. exact (conj Hrun (conj Hi (conj Hd (conj Hsi Hsd)))).
Defined.



Lemma setParameterNode_defaults_and_shows_witness :
  exists w',
    setParameterNode Demo.deviceItems 2 (Some Cases.new_parameter_node) Demo.widget = Some w'
    /\ GetParameter (parameter_node_of w' Cases.new_parameter_node) "Device" = "auto".
Proof.
  destruct (setParameterNode_defaults_and_shows Demo.deviceItems 0 Cases.new_parameter_node
              Demo.widget eq_refl)
    as (w' & Hrun & Hdevice & _).
  exists w'. split; [exact Hrun |]. rewrite Hdevice. vm_compute. reflexivity.
Defined.

Lemma onSceneStartClose_detaches_witness :
  exists w',
    onSceneStartClose Demo.deviceItems 2 Demo.widget = Some w'
    /\ _parameterNode w' = None
    /\ updateParameterNodeFromGUI Demo.deviceItems 1 w'
       = Some (record [CallUpdateParameterNodeFromGUI false] w').
Proof.
  destruct (onSceneStartClose_detaches Demo.deviceItems 0 0 Demo.widget eq_refl)
    as (w' & Hrun & Hnone & _ & _ & Hquiet).
  exists w'. exact (conj Hrun (conj Hnone Hquiet)).
Defined.

Lemma exit_stops_refresh_witness :
  exists w',
    updateParameterNodeFromGUI Demo.deviceItems 1 (exit Cases.chosen) = Some w'
    /\ ui w' = ui Cases.chosen.
Proof.
  destruct (exit_stops_refresh Demo.deviceItems 0 Cases.chosen "vtkMRMLScriptedModuleNode1"
              eq_refl eq_refl)
    as (w' & Hrun & _ & Hui & _).
  exists w'. exact (conj Hrun Hui).
Defined.

Lemma initializeParameterNode_selects_first_volume_witness :
  exists w',
    initializeParameterNode Demo.deviceItems Cases.new_parameter_node Cases.firstVolumeNode 2
      Demo.widget = Some w'
    /\ inputVolumeSelector (ui w') = Some "vtkMRMLScalarVolumeNode1".
Proof.
  destruct (initializeParameterNode_selects_first_volume Demo.deviceItems
              Cases.new_parameter_node Cases.firstVolumeNode 0 Demo.widget
              "vtkMRMLScalarVolumeNode1" eq_refl)
    as (w' & Hrun & _ & Hinput & _).
  - vm_compute. reflexivity.
  - vm_compute. reflexivity.
  - discriminate.
  - vm_compute. by eexists.
  - exists w'. exact (conj Hrun Hinput).
Defined.

Lemma initializeParameterNode_keeps_input_witness :
  exists w',
    initializeParameterNode Demo.deviceItems "vtkMRMLScriptedModuleNode1" Cases.firstVolumeNode 2
      Demo.widget = Some w'
    /\ inputVolumeSelector (ui w') = Some "vtkMRMLScalarVolumeNode1".
Proof.
  destruct (initializeParameterNode_keeps_input Demo.deviceItems "vtkMRMLScriptedModuleNode1"
              Cases.firstVolumeNode 0 Demo.widget eq_refl)
    as (w' & Hrun & _ & Hinput).
  - left. vm_compute. by eexists.
  - exists w'. split; [exact Hrun |]. rewrite Hinput. vm_compute. reflexivity.
Defined.


Lemma onApplyButton_enabled_has_input_witness :
  exists w',
    updateGUIFromParameterNode Demo.deviceItems 2 Demo.widget = Some w'
    /\ is_Some (inputVolumeSelector (ui w'))
    /\ onApplyButton_process Demo.temp_path Demo.HD_BET_path Demo.threshold_tool
         Demo.read_binary_labelmap (ui w') Demo.world
       ≠ (Raised (ValueError "Input or output volume is invalid"), Demo.world).
Proof.
  set (w' := default Demo.widget (updateGUIFromParameterNode Demo.deviceItems 2 Demo.widget)).
  assert (Hrun : updateGUIFromParameterNode Demo.deviceItems 2 Demo.widget = Some w')
    by (vm_compute; reflexivity).
  destruct (onApplyButton_enabled_has_input Demo.temp_path Demo.HD_BET_path Demo.threshold_tool
              Demo.read_binary_labelmap Demo.deviceItems 0 Demo.widget
              "vtkMRMLScriptedModuleNode1" w' Demo.world eq_refl eq_refl Hrun)
    as (Hinput & _ & Hvalue).
  - vm_compute. reflexivity.
  - exists w'. exact (conj Hrun (conj Hinput Hvalue)).
Defined.
